(** * ScreenSharePermissionDialog: permission request and error classification

    A shallow embedding of the logic of the [ScreenSharePermissionDialog]
    React component: the constants [ERROR_TYPES] and [DISPLAY_CONSTRAINTS],
    the classifier [getErrorInfo], the asynchronous [requestScreenShare],
    the remediation table [troubleshootingData] and its reader
    [getTroubleshootingContent].

    Conventions of the embedding.
    - JavaScript strings are [string]; the string tags of [ERROR_TYPES] are
      kept as strings, as in the source.
    - [undefined] members of [navigator] are [None].
    - A completion of a synchronous computation is [Normal v] or
      [Abrupt e] (a thrown value).
    - [requestScreenShare] is written in a small resumption monad: a run
      ends normally, ends by a throw, or is suspended at its single
      [await] with the continuation that the settled promise resumes.
    - React state ([isRequesting], [error]) is a record updated in place by
      the setters; every externally visible action is also appended to a
      log, so that the order of actions can be stated.
    - The calls [addEventListener] and [console.error] are logged and
      return normally.  The prop [onPermissionGranted] is a function of the
      parent: its call is logged, and it returns or throws. *)

From Stdlib Require Import ZArith Ascii String List.
From stdpp Require Import base option list strings gmap fin_maps.

Local Open Scope string_scope.
Local Open Scope list_scope.

(** ** JavaScript strings *)

(** [String.prototype.startsWith]. *)
Fixpoint startsWith (s p : string) {struct p} : bool :=
  match p, s with
  | EmptyString, _ => true
  | String _ _, EmptyString => false
  | String a p', String b s' => if Ascii.eqb a b then startsWith s' p' else false
  end.

(** [String.prototype.includes]: [sub] occurs in [s] as a contiguous run. *)
Fixpoint includes (s sub : string) : bool :=
  startsWith s sub ||
  match s with
  | EmptyString => false
  | String _ s' => includes s' sub
  end.

(** [String.prototype.toLowerCase], on the ASCII letters. *)
Definition lower_ascii (c : ascii) : ascii :=
  let n := nat_of_ascii c in
  if (65 <=? n)%nat && (n <=? 90)%nat then ascii_of_nat (n + 32) else c.

Fixpoint toLowerCase (s : string) : string :=
  match s with
  | EmptyString => EmptyString
  | String c s' => String (lower_ascii c) (toLowerCase s')
  end.

(** ** Values that can be thrown

    [catch (err)] binds a value of type [unknown].  The classifier only
    distinguishes instances of [DOMException] (whose [name] it reads) from
    everything else. *)
Inductive JsValue : Type :=
| JsUndefined
| JsNull
| JsString (s : string)
| JsError (name msg : string)       (* Error, TypeError, ...: not a DOMException *)
| DOMException (name msg : string).

Definition instanceof_DOMException (v : JsValue) : bool :=
  match v with DOMException _ _ => true | _ => false end.

Inductive Completion (A : Type) : Type :=
| Normal (a : A)
| Abrupt (e : JsValue).
Arguments Normal {A} a.
Arguments Abrupt {A} e.

Definition cbind {A B} (c : Completion A) (f : A -> Completion B) : Completion B :=
  match c with
  | Normal a => f a
  | Abrupt e => Abrupt e
  end.

(** Reading a property of [undefined] or [null] throws a [TypeError]. *)
Definition cannot_read (prop : string) : JsValue :=
  JsError "TypeError" ("Cannot read properties of undefined (reading '" ++ prop ++ "')").

(** ** The environment: [navigator] *)

Record MediaDevices := { getDisplayMedia : bool (* the method is defined *) }.
Record Navigator := { mediaDevices : option MediaDevices }.

(** Truthiness of a member that is an object or [undefined]. *)
Definition defined {A} (o : option A) : bool :=
  match o with Some _ => true | None => false end.

(** [md.getDisplayMedia], where [md] is the value of [navigator.mediaDevices]. *)
Definition member_getDisplayMedia (md : option MediaDevices) : Completion bool :=
  match md with
  | Some m => Normal (getDisplayMedia m)
  | None => Abrupt (cannot_read "getDisplayMedia")
  end.

(** [navigator.mediaDevices?.getDisplayMedia]. *)
Definition optional_getDisplayMedia (md : option MediaDevices) : bool :=
  match md with
  | Some m => getDisplayMedia m
  | None => false
  end.

(** [err.name]. *)
Definition member_name (v : JsValue) : Completion (option string) :=
  match v with
  | JsUndefined | JsNull => Abrupt (cannot_read "name")
  | JsString _ => Normal None
  | JsError n _ | DOMException n _ => Normal (Some n)
  end.

(** ** Constants *)

Module ERROR_TYPES.
Definition HTTPS : string := "https".
Definition NOT_SUPPORTED : string := "not-supported".
Definition PERMISSION : string := "permission".
Definition GENERAL : string := "general".
(** [Object.values(ERROR_TYPES)]. *)
Definition values : list string := [HTTPS; NOT_SUPPORTED; PERMISSION; GENERAL].
End ERROR_TYPES.

Record Range := { ideal : Z; max : Z }.
Record VideoConstraints := { width : Range; height : Range; frameRate : Range }.
Record DisplayConstraints := { video : VideoConstraints; audio : bool }.

Definition DISPLAY_CONSTRAINTS : DisplayConstraints :=
  {| video := {| width := {| ideal := 1920; max := 1920 |};
                 height := {| ideal := 1080; max := 1080 |};
                 frameRate := {| ideal := 60; max := 60 |} |};
     audio := false |}.

Record ErrorInfo := { type : string; message : string }.

(** ** The classifier *)

Section Classifier.
Variable navigator : Navigator.

Definition getErrorInfo (err : JsValue) : Completion ErrorInfo :=
  if negb (defined (mediaDevices navigator)) then
    Normal {| type := ERROR_TYPES.HTTPS;
              message := "Screen sharing requires a secure connection (HTTPS)" |}
  else
    cbind (member_getDisplayMedia (mediaDevices navigator)) (fun gdm =>
    if negb gdm then
      Normal {| type := ERROR_TYPES.NOT_SUPPORTED;
                message := "Screen sharing not supported in this browser" |}
    else if instanceof_DOMException err then
      cbind (member_name err) (fun name =>
      let name := default "undefined" name in
      if String.eqb name "NotAllowedError" then
        Normal {| type := ERROR_TYPES.PERMISSION;
                  message := "Screen sharing access denied" |}
      else if String.eqb name "NotFoundError" then
        Normal {| type := ERROR_TYPES.GENERAL;
                  message := "No screen available for sharing" |}
      else if String.eqb name "NotReadableError" then
        Normal {| type := ERROR_TYPES.GENERAL;
                  message := "Screen is already being captured" |}
      else if String.eqb name "OverconstrainedError" then
        Normal {| type := ERROR_TYPES.GENERAL;
                  message := "Screen doesn't meet capture requirements" |}
      else if String.eqb name "SecurityError" then
        Normal {| type := ERROR_TYPES.HTTPS;
                  message := "Security error accessing screen" |}
      else if String.eqb name "AbortError" then
        Normal {| type := ERROR_TYPES.PERMISSION;
                  message := "Screen sharing was cancelled" |}
      else
        Normal {| type := ERROR_TYPES.GENERAL;
                  message := "Screen sharing error: " ++ name |})
    else
      Normal {| type := ERROR_TYPES.GENERAL;
                message := "Failed to access screen" |}).
End Classifier.

(** ** Streams, promises and the observable actions *)

Record MediaStreamTrack := { track_id : nat }.
Record MediaStream := { stream_id : nat; getVideoTracks : list MediaStreamTrack }.

(** How the promise returned by [getDisplayMedia] settles. *)
Inductive Settlement : Type :=
| Fulfilled (stream : MediaStream)
| Rejected (reason : JsValue).

(** The promise of one capture request; it remembers the constraints the
    request was made with. *)
Record Promise := { requested : DisplayConstraints }.

Inductive Action : Type :=
| A_setIsRequesting (b : bool)
| A_setError (e : option ErrorInfo)
| A_getDisplayMedia (c : DisplayConstraints)
| A_addEventListener (t : MediaStreamTrack) (event : string)
| A_onPermissionGranted (s : MediaStream)
| A_console_error (label : string) (err : JsValue) (info : ErrorInfo).

(** The two [useState] cells of the component, and the log of actions. *)
Record State := { isRequesting : bool; error : option ErrorInfo; log : list Action }.

(** ** The resumption monad of an [async] function *)

Inductive Run (A : Type) : Type :=
| Ret (a : A) (s : State)
| Throw (e : JsValue) (s : State)
| Await (p : Promise) (s : State) (k : Settlement -> State -> Run A).
Arguments Ret {A} a s.
Arguments Throw {A} e s.
Arguments Await {A} p s k.

Definition M (A : Type) : Type := State -> Run A.

Fixpoint run_bind {A B} (r : Run A) (f : A -> M B) : Run B :=
  match r with
  | Ret a s => f a s
  | Throw e s => Throw e s
  | Await p s k => Await p s (fun st s' => run_bind (k st s') f)
  end.

(** [try { r } catch (err) { h err }]. *)
Fixpoint run_catch {A} (r : Run A) (h : JsValue -> M A) : Run A :=
  match r with
  | Ret a s => Ret a s
  | Throw e s => h e s
  | Await p s k => Await p s (fun st s' => run_catch (k st s') h)
  end.

(** [try { r } finally { f }]: [f] runs on both exits and keeps the
    completion of [r] unless it throws itself. *)
Fixpoint run_finally {A} (r : Run A) (f : M unit) : Run A :=
  match r with
  | Ret a s => run_bind (f s) (fun _ s' => Ret a s')
  | Throw e s => run_bind (f s) (fun _ s' => Throw e s')
  | Await p s k => Await p s (fun st s' => run_finally (k st s') f)
  end.

#[global] Instance M_ret : MRet M := fun A a s => Ret a s.
#[global] Instance M_bind : MBind M := fun A B f m s => run_bind (m s) f.

Definition throw {A} (e : JsValue) : M A := fun s => Throw e s.

Definition lift {A} (c : Completion A) : M A :=
  match c with
  | Normal a => mret a
  | Abrupt e => throw e
  end.

Definition try_catch_finally {A} (body : M A) (handler : JsValue -> M A)
    (finalizer : M unit) : M A :=
  fun s => run_finally (run_catch (body s) handler) finalizer.

(** [await p]: suspend; a fulfilled promise resumes with its value, a
    rejected one throws its reason at the point of the [await]. *)
Definition await (p : Promise) : M MediaStream :=
  fun s => Await p s (fun st s' =>
    match st with
    | Fulfilled stream => Ret stream s'
    | Rejected reason => Throw reason s'
    end).

Definition act (a : Action) : M unit :=
  fun s => Ret tt {| isRequesting := isRequesting s; error := error s;
                     log := log s ++ [a] |}.

Definition setIsRequesting (b : bool) : M unit :=
  fun s => Ret tt {| isRequesting := b; error := error s;
                     log := log s ++ [A_setIsRequesting b] |}.

Definition setError (e : option ErrorInfo) : M unit :=
  fun s => Ret tt {| isRequesting := isRequesting s; error := e;
                     log := log s ++ [A_setError e] |}.

(** [xs[0]], for use as the receiver of a method call: [undefined] there
    throws. *)
Definition item0 {A} (xs : list A) (method : string) : M A :=
  match xs !! 0%nat with
  | Some x => mret x
  | None => throw (cannot_read method)
  end.

(** ** The request *)

Section Requester.
Variable navigator : Navigator.

(** The prop [onPermissionGranted]: what the parent's function does with
    a stream, as far as the dialog can tell: it returns, or it throws. *)
Variable onPermissionGranted : MediaStream -> Completion unit.

(** [navigator.mediaDevices.getDisplayMedia(c)]: the platform prompt. *)
Definition call_getDisplayMedia (c : DisplayConstraints) : M Promise :=
  gdm ← lift (member_getDisplayMedia (mediaDevices navigator));
  if gdm : bool then
    act (A_getDisplayMedia c) ;; mret {| requested := c |}
  else
    throw (JsError "TypeError" "navigator.mediaDevices.getDisplayMedia is not a function").

Definition requestScreenShare : M unit :=
  setIsRequesting true ;;
  setError None ;;
  try_catch_finally
    ((if negb (optional_getDisplayMedia (mediaDevices navigator))
      then throw (JsError "Error" "NOT_SUPPORTED") else mret tt) ;;
     promise ← call_getDisplayMedia DISPLAY_CONSTRAINTS;
     stream ← await promise;
     track ← item0 (getVideoTracks stream) "addEventListener";
     act (A_addEventListener track "ended") ;;
     act (A_onPermissionGranted stream) ;;
     lift (onPermissionGranted stream))
    (fun err =>
       errorInfo ← lift (getErrorInfo navigator err);
       setError (Some errorInfo) ;;
       act (A_console_error "Error accessing screen share:" err errorInfo))
    (setIsRequesting false).
End Requester.

(** A request run on its own: when it is suspended, the promise settles
    as [st] before anything else happens. *)
Fixpoint settle_with {A} (st : Settlement) (r : Run A) : Run A :=
  match r with
  | Await _ s k => settle_with st (k st s)
  | _ => r
  end.

Definition final_state {A} (r : Run A) : State :=
  match r with
  | Ret _ s | Throw _ s | Await _ s _ => s
  end.

(** ** The remediation table *)

Record RemediationEntry := { title : string; items : list string }.

Definition troubleshootingData : gmap string RemediationEntry :=
  <[ERROR_TYPES.HTTPS :=
      {| title := "🔒 HTTPS Required";
         items := ["Access this app via https:// instead of http://";
                   "If developing locally, use localhost (exempt from HTTPS requirement)";
                   "Deploy to a hosting service that provides HTTPS (Vercel, Netlify, GitHub Pages)"] |}]>
  (<[ERROR_TYPES.NOT_SUPPORTED :=
      {| title := "🌐 Browser Compatibility";
         items := ["Update your browser to the latest version";
                   "Use Chrome 72+, Edge 79+, Firefox 66+, or Safari 13+";
                   "Enable JavaScript if disabled"] |}]>
  (<[ERROR_TYPES.PERMISSION :=
      {| title := "🚫 Permission Issues";
         items := ["Click 'Share' when the screen sharing dialog appears";
                   "Select your game window or entire screen";
                   "Make sure to select 'Share audio' if you want game sounds";
                   "Check browser settings → Privacy & Security → Screen sharing"] |}]>
  (<[ERROR_TYPES.GENERAL :=
      {| title := "General Troubleshooting";
         items := ["Make sure your game is running and visible";
                   "Try selecting 'Entire Screen' instead of a specific window";
                   "Close other screen recording/sharing applications";
                   "Try using a different browser or restarting your browser"] |}]>
  ∅))).

Record TroubleshootingStyling := { bg : string; title_class : string; list_class : string }.
Record ErrorStyling :=
  { container : string; text : string; troubleshooting : TroubleshootingStyling }.

Definition getErrorStyling (isSecurityIssue : bool) : ErrorStyling :=
  {| container := "border rounded-lg p-4 " ++
       (if isSecurityIssue then "bg-orange-900/20 border-orange-500/30"
        else "bg-red-900/20 border-red-500/30");
     text := "text-sm " ++ (if isSecurityIssue then "text-orange-400" else "text-red-400");
     troubleshooting :=
       {| bg := "border rounded-lg p-3 " ++
            (if isSecurityIssue then "bg-orange-900/20 border-orange-500/30"
             else "bg-red-900/20 border-red-500/30");
          title_class := "text-xs font-semibold mb-2 " ++
            (if isSecurityIssue then "text-orange-400" else "text-red-400");
          list_class := "text-xs space-y-1 " ++
            (if isSecurityIssue then "text-orange-300" else "text-red-300") |} |}.

(** The element [getTroubleshootingContent] returns: the classes of the
    box, the heading, and one bullet per item. *)
Record TroubleshootingView :=
  { view_class : string; heading_class : string; heading : string;
    bullets_class : string; bullets : list string }.

(** The names every object inherits from [Object.prototype]. *)
Definition Object_prototype_keys : list string :=
  [ "constructor"; "hasOwnProperty"; "isPrototypeOf"; "propertyIsEnumerable";
    "toLocaleString"; "toString"; "valueOf"; "__proto__";
    "__defineGetter__"; "__defineSetter__"; "__lookupGetter__"; "__lookupSetter__" ].

(** The value of [troubleshootingData[key]]: an entry of the object's own,
    a member inherited from [Object.prototype] (a function or the prototype
    itself, with neither [title] nor [items]), or [undefined]. *)
Inductive Looked_up : Type :=
| Own (entry : RemediationEntry)
| Inherited
| Undefined.

Definition troubleshootingData_at (key : string) : Looked_up :=
  match troubleshootingData !! key with
  | Some entry => Own entry
  | None => if bool_decide (key ∈ Object_prototype_keys) then Inherited else Undefined
  end.

(** [content.title] and [content.items]: reading them of [undefined]
    throws; an inherited member has them [undefined]. *)
Definition member_title (content : Looked_up) : Completion (option string) :=
  match content with
  | Own c => Normal (Some (title c))
  | Inherited => Normal None
  | Undefined => Abrupt (cannot_read "title")
  end.

Definition member_items (content : Looked_up) : Completion (option (list string)) :=
  match content with
  | Own c => Normal (Some (items c))
  | Inherited => Normal None
  | Undefined => Abrupt (cannot_read "items")
  end.

(** [its.map(f)]. *)
Definition call_map {A B} (its : option (list A)) (f : A -> B) : Completion (list B) :=
  match its with
  | Some l => Normal (map f l)
  | None => Abrupt (cannot_read "map")
  end.

Definition getTroubleshootingContent (error : option ErrorInfo)
    : Completion (option TroubleshootingView) :=
  match error with
  | None => Normal None
  | Some error =>
      let content := troubleshootingData_at (type error) in
      let isSecurityIssue := String.eqb (type error) ERROR_TYPES.HTTPS in
      let styling := getErrorStyling isSecurityIssue in
      cbind (member_title content) (fun heading =>
      cbind (member_items content) (fun its =>
      cbind (call_map its (fun item => ("• " ++ item)%string)) (fun bullets =>
      Normal (Some {| view_class := bg (troubleshooting styling);
                      heading_class := title_class (troubleshooting styling);
                      heading := default "" heading;
                      bullets_class := list_class (troubleshooting styling);
                      bullets := bullets |}))))
  end.

(** ** The mounted dialog

    [useEffect(() => { requestScreenShare(); }, [requestScreenShare])] runs
    the request once after the first render, and [requestScreenShare] keeps
    its identity as long as [onPermissionGranted] does; the runs below are
    those of a dialog mounted with a fixed [onPermissionGranted].  After the
    mount the dialog is driven by clicks on the "Try Again" button and by
    the settlement of pending promises. *)

Record Dialog :=
  { state : State;
    pending : list (Promise * (Settlement -> State -> Run unit)) }.

Inductive Event : Type :=
| ClickTryAgain
| Settle (i : nat) (st : Settlement).

(** The button is rendered under [error && errorStyling], and
    [errorStyling] is non-null exactly when [error] is. *)
Definition retry_rendered (s : State) : bool := defined (error s).

(** [disabled={isRequesting}]. *)
Definition retry_disabled (s : State) : bool := isRequesting s.

Section Mounted.
Variable navigator : Navigator.
Variable onPermissionGranted : MediaStream -> Completion unit.

(** [GlassButton] is imported from [./GlassButton], which is not among
    the sources: whether its [onClick] fires for a given value of
    [disabled] is left open. *)
Variable GlassButton_fires : bool -> bool.

Definition initial : State := {| isRequesting := false; error := None; log := [] |}.

(** Take a run as far as it goes: a finished run leaves its state, a
    suspended one also leaves its continuation among the pending ones. *)
Definition absorb (r : Run unit) (rest : list (Promise * (Settlement -> State -> Run unit)))
    : Dialog :=
  match r with
  | Ret _ s | Throw _ s => {| state := s; pending := rest |}
  | Await p s k => {| state := s; pending := rest ++ [(p, k)] |}
  end.

Definition invoke (d : Dialog) : Dialog :=
  absorb (requestScreenShare navigator onPermissionGranted (state d)) (pending d).

Definition mount : Dialog := invoke {| state := initial; pending := [] |}.

Definition step (d : Dialog) (ev : Event) : Dialog :=
  match ev with
  | ClickTryAgain =>
      if retry_rendered (state d) && GlassButton_fires (retry_disabled (state d))
      then invoke d else d
  | Settle i st =>
      match pending d !! i with
      | Some (_, k) => absorb (k st (state d)) (delete i (pending d))
      | None => d
      end
  end.

Definition run (evs : list Event) : Dialog := foldl step mount evs.
End Mounted.

(** ** The mounted dialog under a parent that changes the callback

    [requestScreenShare] is memoized on [onPermissionGranted], and the
    effect depends on [requestScreenShare]: when the parent renders the
    dialog with a function of a new identity, the effect runs again and
    starts another request, whatever the state of the dialog.  From then on
    the button calls the new [requestScreenShare]; a request that is
    already pending keeps the callback it was started with. *)

Record Component :=
  { dialog : Dialog;
    callback : MediaStream -> Completion unit }.

Inductive Input : Type :=
| Happens (ev : Event)
| NewCallback (onPermissionGranted : MediaStream -> Completion unit).

Section Rerendered.
Variable navigator : Navigator.
Variable GlassButton_fires : bool -> bool.

Definition react (c : Component) (input : Input) : Component :=
  match input with
  | Happens ev =>
      {| dialog := step navigator (callback c) GlassButton_fires (dialog c) ev;
         callback := callback c |}
  | NewCallback onPermissionGranted =>
      {| dialog := invoke navigator onPermissionGranted (dialog c);
         callback := onPermissionGranted |}
  end.

Definition play (onPermissionGranted : MediaStream -> Completion unit)
    (inputs : list Input) : Component :=
  foldl react
    {| dialog := mount navigator onPermissionGranted;
       callback := onPermissionGranted |}
    inputs.
End Rerendered.

(** ** The rest of the component: what is rendered

    The constants of [src/constants/index.ts] that the dialog reads, the
    helpers [renderIcon], [getTitle] and [getDescription], and the element
    the component returns.  The element is kept as a record of the parts
    whose presence or content depends on the state; fixed markup (layout
    classes, ARIA attributes, the path data of the two drawings) is left
    out. *)

Module GLASS_EFFECTS.
Module COLORS.
Definition DEFAULT_BG : string := "rgba(0, 0, 0, 0.25)".
Definition SUCCESS_BG : string := "rgba(0, 50, 0, 0.25)".
Definition ERROR_BG : string := "rgba(50, 0, 0, 0.25)".
Definition BUTTON_BG : string := "rgba(59, 130, 246, 0.25)".
Definition HIGHLIGHT : string := "rgba(255, 255, 255, 0.15)".
Definition TEXT : string := "#ffffff".
End COLORS.
End GLASS_EFFECTS.

(** [window.location]. *)
Record Location := { protocol : string; host : string }.

Inductive Drawing : Type :=
| CrossedCircle     (* the first [svg]: a circle with a cross *)
| Monitor.          (* the second [svg]: a screen on its stand *)

Inductive IconView : Type :=
| Spinner (className : string)
| Glyph (containerClass svgClass : string) (drawing : Drawing).

Definition renderIcon (s : State) : IconView :=
  if isRequesting s then
    Spinner "animate-spin rounded-full h-16 w-16 border-4 border-blue-500 border-t-transparent"
  else
    let iconClass := "w-8 h-8" in
    let containerClass :=
      "w-16 h-16 rounded-full flex items-center justify-center " +:+
      (if defined (error s) then "bg-red-500/20" else "bg-blue-500/20") in
    if defined (error s) then Glyph containerClass (iconClass +:+ " text-red-400") CrossedCircle
    else Glyph containerClass (iconClass +:+ " text-blue-400") Monitor.

Definition getTitle (s : State) : string :=
  if isRequesting s then "Requesting Screen Share Access"
  else if defined (error s) then "Screen Share Access Required"
  else "Screen Share Permission Required".

Definition getDescription (s : State) : string :=
  if isRequesting s then
    "Please select your game window or screen to share for FPS commentary..."
  else match error s with
       | Some e => message e
       | None => "This app requires screen sharing access to provide live commentary on your FPS gameplay. Please grant permission to continue."
       end.

(** [error?.type === ERROR_TYPES.HTTPS]. *)
Definition isSecurityIssue (error : option ErrorInfo) : bool :=
  match error with
  | Some e => String.eqb (type e) ERROR_TYPES.HTTPS
  | None => false
  end.

(** [error ? getErrorStyling(isSecurityIssue) : null]. *)
Definition errorStyling (error : option ErrorInfo) : option ErrorStyling :=
  match error with
  | Some _ => Some (getErrorStyling (isSecurityIssue error))
  | None => None
  end.

(** The block under [error && errorStyling]: the framed sentence and the
    "Try Again" button with its [disabled] attribute. *)
Record ErrorBox :=
  { box_class : string; box_text_class : string; box_text : string;
    button_disabled : bool }.

(** The second container, under [error]: the troubleshooting content, the
    current URL, and whether the non-secure warning is shown. *)
Record TroubleshootingPanel :=
  { panel_content : option TroubleshootingView;
    current_url : string;
    insecure_warning : bool }.

Record DialogView :=
  { view_bgColor : string;
    view_icon : IconView;
    view_title : string;
    view_description : string;
    view_error_box : option ErrorBox;
    view_requesting_hint : bool;
    view_panel : option TroubleshootingPanel }.

Definition render (location : Location) (s : State) : Completion DialogView :=
  let isSecurityIssue := isSecurityIssue (error s) in
  let errorStyling := errorStyling (error s) in
  let error_box :=
    match error s, errorStyling with
    | Some _, Some styling =>
        Some {| box_class := container styling;
                box_text_class := text styling;
                box_text :=
                  if isSecurityIssue
                  then "This app requires HTTPS to access screen sharing. FPS commentary cannot work without screen access."
                  else "Screen sharing access is required for this app to function. FPS commentary cannot work without screen input.";
                button_disabled := isRequesting s |}
    | _, _ => None
    end in
  cbind
    (match error s with
     | Some _ =>
         cbind (getTroubleshootingContent (error s)) (fun content =>
         Normal (Some {| panel_content := content;
                         current_url := protocol location +:+ "//" +:+ host location;
                         insecure_warning :=
                           isSecurityIssue &&
                           negb (startsWith (protocol location) "https") |}))
     | None => Normal None
     end)
    (fun panel =>
       Normal {| view_bgColor := if defined (error s)
                                 then GLASS_EFFECTS.COLORS.ERROR_BG
                                 else GLASS_EFFECTS.COLORS.DEFAULT_BG;
                 view_icon := renderIcon s;
                 view_title := getTitle s;
                 view_description := getDescription s;
                 view_error_box := error_box;
                 view_requesting_hint := isRequesting s;
                 view_panel := panel |}).

(** * Vocabulary of the properties *)

(** The categories of the specification, and the tag each one has in
    [ERROR_TYPES]. *)
Inductive Category : Type :=
| SecureContextRequired
| Unsupported
| PermissionDenied
| General.

Definition tag (c : Category) : string :=
  match c with
  | SecureContextRequired => ERROR_TYPES.HTTPS
  | Unsupported => ERROR_TYPES.NOT_SUPPORTED
  | PermissionDenied => ERROR_TYPES.PERMISSION
  | General => ERROR_TYPES.GENERAL
  end.

(** The table of the specification: exception name, category, and the
    phrase that describes the message. *)
Definition spec_table : list (string * (Category * string)) :=
  [ ("NotAllowedError", (PermissionDenied, "access denied"));
    ("AbortError", (PermissionDenied, "cancelled"));
    ("NotFoundError", (General, "no screen available"));
    ("NotReadableError", (General, "already being captured"));
    ("OverconstrainedError", (General, "doesn't meet capture requirements"));
    ("SecurityError", (SecureContextRequired, "security error accessing screen")) ].

(** The [case] labels of the [switch] in [getErrorInfo]. *)
Definition recognized_names : list string :=
  [ "NotAllowedError"; "NotFoundError"; "NotReadableError";
    "OverconstrainedError"; "SecurityError"; "AbortError" ].

(** Both environment checks pass: the capability surface and the
    capture-request function are there. *)
Definition capable (navigator : Navigator) : Prop :=
  optional_getDisplayMedia (mediaDevices navigator) = true.

Definition navigator_full : Navigator :=
  {| mediaDevices := Some {| getDisplayMedia := true |} |}.
Definition navigator_no_function : Navigator :=
  {| mediaDevices := Some {| getDisplayMedia := false |} |}.
Definition navigator_insecure : Navigator := {| mediaDevices := None |}.

(** The value of [getErrorInfo], which always completes normally. *)
Definition classify (navigator : Navigator) (err : JsValue) : ErrorInfo :=
  match getErrorInfo navigator err with
  | Normal info => info
  | Abrupt _ => {| type := ""; message := "" |}
  end.

(** What the [catch] and [finally] blocks do for a caught [err]. *)
Definition caught (navigator : Navigator) (err : JsValue) : list Action :=
  [ A_setError (Some (classify navigator err));
    A_console_error "Error accessing screen share:" err (classify navigator err);
    A_setIsRequesting false ].

(** What a suspended request does once its promise has settled. *)
Definition resumed (navigator : Navigator)
    (onPermissionGranted : MediaStream -> Completion unit) (st : Settlement)
    : list Action :=
  match st with
  | Fulfilled stream =>
      match getVideoTracks stream with
      | track :: _ =>
          [ A_addEventListener track "ended"; A_onPermissionGranted stream ] ++
          match onPermissionGranted stream with
          | Normal _ => [A_setIsRequesting false]
          | Abrupt thrown => caught navigator thrown
          end
      | [] => caught navigator (cannot_read "addEventListener")
      end
  | Rejected reason => caught navigator reason
  end.

(** The stored error after the settlement, given the one stored when the
    request resumes. *)
Definition resumed_error (navigator : Navigator)
    (onPermissionGranted : MediaStream -> Completion unit) (st : Settlement)
    (stored : option ErrorInfo) : option ErrorInfo :=
  match st with
  | Fulfilled stream =>
      match getVideoTracks stream with
      | _ :: _ =>
          match onPermissionGranted stream with
          | Normal _ => stored
          | Abrupt thrown => Some (classify navigator thrown)
          end
      | [] => Some (classify navigator (cannot_read "addEventListener"))
      end
  | Rejected reason => Some (classify navigator reason)
  end.

Definition NOT_SUPPORTED_error : JsValue := JsError "Error" "NOT_SUPPORTED".

(** The actions of one invocation run on its own, and the error it
    leaves stored. *)
Definition request_actions (navigator : Navigator)
    (onPermissionGranted : MediaStream -> Completion unit) (st : Settlement)
    : list Action :=
  if optional_getDisplayMedia (mediaDevices navigator) then
    [A_setIsRequesting true; A_setError None; A_getDisplayMedia DISPLAY_CONSTRAINTS]
      ++ resumed navigator onPermissionGranted st
  else
    [A_setIsRequesting true; A_setError None] ++ caught navigator NOT_SUPPORTED_error.

Definition request_error (navigator : Navigator)
    (onPermissionGranted : MediaStream -> Completion unit) (st : Settlement)
    : option ErrorInfo :=
  if optional_getDisplayMedia (mediaDevices navigator) then
    resumed_error navigator onPermissionGranted st None
  else Some (classify navigator NOT_SUPPORTED_error).

Definition is_prompt (a : Action) : bool :=
  match a with A_getDisplayMedia _ => true | _ => false end.
Definition is_setError (a : Action) : bool :=
  match a with A_setError _ => true | _ => false end.
Definition is_setIsRequesting (a : Action) : bool :=
  match a with A_setIsRequesting _ => true | _ => false end.
Definition is_observer (a : Action) : bool :=
  match a with A_addEventListener _ _ => true | _ => false end.
Definition is_grant (a : Action) : bool :=
  match a with A_onPermissionGranted _ => true | _ => false end.

(** A callback that returns, and one that throws. *)
Definition callback_returns : MediaStream -> Completion unit := fun _ => Normal tt.
Definition callback_throws : MediaStream -> Completion unit :=
  fun _ => Abrupt (JsError "TypeError" "setStream is not a function").

Definition screen_track : MediaStreamTrack := {| track_id := 0 |}.
Definition screen_stream : MediaStream :=
  {| stream_id := 7; getVideoTracks := [screen_track] |}.


(** A dialog whose parent passes a new callback while the first request is
    pending, and the same dialog after the first request is rejected. *)
Definition callback_changed : Component :=
  play navigator_full negb callback_returns [NewCallback callback_throws].
Definition callback_changed_then_rejected : Component :=
  play navigator_full negb callback_returns
    [ NewCallback callback_throws;
      Happens (Settle 0 (Rejected (DOMException "NotAllowedError" ""))) ].

Definition count (f : Action -> bool) (l : list Action) : nat :=
  length (List.filter f l).

Definition is_set (a : Action) : bool :=
  match a with A_setIsRequesting true => true | _ => false end.
Definition is_clear (a : Action) : bool :=
  match a with A_setIsRequesting false => true | _ => false end.

(** The invariant of the dialog: nothing is pending, or exactly one
    request is, and then the dialog is requesting with no error stored and
    the pending continuation has the closed form [resumed]; and every request
    that was started and is not pending has cleared the flag once. *)
Definition dialog_inv (navigator : Navigator)
    (onPermissionGranted : MediaStream -> Completion unit) (d : Dialog) : Prop :=
  ( pending d = [] \/
    exists p k,
      pending d = [(p, k)] /\
      isRequesting (state d) = true /\
      error (state d) = None /\
      forall st s',
        k st s' = Ret tt {| isRequesting := false;
                            error := resumed_error navigator onPermissionGranted
                                       st (error s');
                            log := log s' ++ resumed navigator onPermissionGranted st |} ) /\
  count is_set (log (state d)) =
    count is_clear (log (state d)) + length (pending d).

(** The messages that [getErrorInfo] returns as literals. *)
Definition literal_messages : list string :=
  [ "Screen sharing requires a secure connection (HTTPS)";
    "Screen sharing not supported in this browser";
    "Screen sharing access denied";
    "No screen available for sharing";
    "Screen is already being captured";
    "Screen doesn't meet capture requirements";
    "Security error accessing screen";
    "Screen sharing was cancelled";
    "Failed to access screen" ].

Definition is_console_error (a : Action) : bool :=
  match a with A_console_error _ _ _ => true | _ => false end.

(** The three situations of a mounted dialog: at rest (nothing pending,
    not requesting, and the stored error, if any, is a result of the
    classifier), or one request pending (requesting, no error stored). *)
Definition dialog_mode (navigator : Navigator)
    (onPermissionGranted : MediaStream -> Completion unit) (d : Dialog) : Prop :=
  ( pending d = [] /\
    isRequesting (state d) = false /\
    (error (state d) = None \/
     exists err, error (state d) = Some (classify navigator err)) ) \/
  ( exists p k,
      pending d = [(p, k)] /\
      isRequesting (state d) = true /\
      error (state d) = None /\
      forall st s',
        k st s' = Ret tt {| isRequesting := false;
                            error := resumed_error navigator onPermissionGranted
                                       st (error s');
                            log := log s' ++ resumed navigator onPermissionGranted st |} ).

Definition is_click (ev : Event) : bool :=
  match ev with ClickTryAgain => true | _ => false end.
Definition is_fulfilment (ev : Event) : bool :=
  match ev with Settle _ (Fulfilled _) => true | _ => false end.

(** Bounds on what a dialog has done so far: at most [grants] calls of
    [onPermissionGranted], as many observers as calls, and at most
    [prompts] calls of the platform capture function. *)
Definition effects_within (d : Dialog) (grants prompts : nat) : Prop :=
  count is_grant (log (state d)) <= grants /\
  count is_observer (log (state d)) = count is_grant (log (state d)) /\
  count is_prompt (log (state d)) <= prompts.

Definition input_is_click (input : Input) : bool :=
  match input with Happens ev => is_click ev | NewCallback _ => false end.
Definition input_is_fulfilment (input : Input) : bool :=
  match input with Happens ev => is_fulfilment ev | NewCallback _ => false end.
Definition input_is_new_callback (input : Input) : bool :=
  match input with NewCallback _ => true | Happens _ => false end.

(** A pending continuation is the rest of some invocation: for the
    callback it was started with, it finishes as [resumed] says. *)
Definition rest_of_invocation (navigator : Navigator)
    (pk : Promise * (Settlement -> State -> Run unit)) : Prop :=
  exists onPermissionGranted,
    forall st s',
      snd pk st s' =
        Ret tt {| isRequesting := false;
                  error := resumed_error navigator onPermissionGranted st (error s');
                  log := log s' ++ resumed navigator onPermissionGranted st |}.

(** * Properties *)

(** ** Strings *)

Lemma startsWith_app (p rest : string) : startsWith (p +:+ rest) p = true.
Proof.
  induction p as [|a p IH]; simpl; [reflexivity|].
  now rewrite Ascii.eqb_refl.
Qed.

Lemma includes_startsWith (s sub : string) :
  startsWith s sub = true -> includes s sub = true.
Proof. intros H. destruct s; simpl; now rewrite H. Qed.

Lemma includes_app (pre sub post : string) :
  includes (pre +:+ sub +:+ post) sub = true.
Proof.
  induction pre as [|a pre IH].
  - apply includes_startsWith. exact (startsWith_app sub post).
  - simpl. rewrite IH. apply orb_true_r.
Qed.

Lemma append_empty_r (s : string) : s +:+ "" = s.
Proof.
  induction s as [|a s IH]; [reflexivity|].
  change (String a (s +:+ "") = String a s). now rewrite IH.
Qed.

Lemma includes_suffix (pre sub : string) : includes (pre +:+ sub) sub = true.
Proof.
  pose proof (includes_app pre sub "") as H.
  now rewrite append_empty_r in H.
Qed.

(** ** The classifier *)

Lemma capable_inv navigator :
  capable navigator -> mediaDevices navigator = Some {| getDisplayMedia := true |}.
Proof.
  unfold capable. destruct (mediaDevices navigator) as [[[]]|]; simpl; congruence.
Qed.

Lemma getErrorInfo_no_surface navigator err :
  mediaDevices navigator = None ->
  getErrorInfo navigator err =
    Normal {| type := ERROR_TYPES.HTTPS;
              message := "Screen sharing requires a secure connection (HTTPS)" |}.
Proof. intros H. unfold getErrorInfo. now rewrite H. Qed.

Lemma getErrorInfo_no_function navigator md err :
  mediaDevices navigator = Some md -> getDisplayMedia md = false ->
  getErrorInfo navigator err =
    Normal {| type := ERROR_TYPES.NOT_SUPPORTED;
              message := "Screen sharing not supported in this browser" |}.
Proof. intros H1 H2. unfold getErrorInfo. rewrite H1. simpl. now rewrite H2. Qed.

Lemma getErrorInfo_DOMException navigator name payload :
  capable navigator ->
  getErrorInfo navigator (DOMException name payload) =
    if String.eqb name "NotAllowedError" then
      Normal {| type := "permission"; message := "Screen sharing access denied" |}
    else if String.eqb name "NotFoundError" then
      Normal {| type := "general"; message := "No screen available for sharing" |}
    else if String.eqb name "NotReadableError" then
      Normal {| type := "general"; message := "Screen is already being captured" |}
    else if String.eqb name "OverconstrainedError" then
      Normal {| type := "general"; message := "Screen doesn't meet capture requirements" |}
    else if String.eqb name "SecurityError" then
      Normal {| type := "https"; message := "Security error accessing screen" |}
    else if String.eqb name "AbortError" then
      Normal {| type := "permission"; message := "Screen sharing was cancelled" |}
    else
      Normal {| type := "general"; message := "Screen sharing error: " ++ name |}.
Proof.
  intros H. apply capable_inv in H. unfold getErrorInfo. rewrite H. reflexivity.
Qed.

Lemma getErrorInfo_other navigator err :
  capable navigator -> instanceof_DOMException err = false ->
  getErrorInfo navigator err =
    Normal {| type := ERROR_TYPES.GENERAL; message := "Failed to access screen" |}.
Proof.
  intros H Hd. apply capable_inv in H. unfold getErrorInfo. rewrite H. simpl.
  now rewrite Hd.
Qed.

(** The result of the classifier is always one of the eleven pairs the
    source lists, or the default pair built from the name. *)
Lemma getErrorInfo_returns navigator err :
  exists info, getErrorInfo navigator err = Normal info /\
               In (type info) ERROR_TYPES.values.
Proof.
  destruct (mediaDevices navigator) as [md|] eqn:Hmd.
  - destruct (getDisplayMedia md) eqn:Hg.
    + assert (Hc : capable navigator) by (unfold capable; now rewrite Hmd).
      destruct err as [| |s|n m|n m];
        try (rewrite getErrorInfo_other by (assumption || reflexivity);
             eexists; split; [reflexivity|]; simpl; tauto).
      rewrite getErrorInfo_DOMException by assumption.
      repeat match goal with
             | |- context [if String.eqb ?a ?b then _ else _] => destruct (String.eqb a b)
             end;
        (eexists; split; [reflexivity|]); simpl; tauto.
    + rewrite (getErrorInfo_no_function _ md) by assumption.
      eexists; split; [reflexivity|]; simpl; tauto.
  - rewrite getErrorInfo_no_surface by assumption.
    eexists; split; [reflexivity|]; simpl; tauto.
Qed.

(** C1. With both environment checks passed, a platform exception (an
    instance of [DOMException]) that carries one of the six recognized
    names is classified as the table says: the exact category tag and
    message of each row, and, row by row, the category of the
    specification with a message that contains the phrase the specification
    gives for it (compared in lower case). *)
Theorem getErrorInfo_recognized (navigator : Navigator) (payload : string) :
  capable navigator ->
  ( getErrorInfo navigator (DOMException "NotAllowedError" payload) =
      Normal {| type := "permission"; message := "Screen sharing access denied" |} /\
    getErrorInfo navigator (DOMException "AbortError" payload) =
      Normal {| type := "permission"; message := "Screen sharing was cancelled" |} /\
    getErrorInfo navigator (DOMException "NotFoundError" payload) =
      Normal {| type := "general"; message := "No screen available for sharing" |} /\
    getErrorInfo navigator (DOMException "NotReadableError" payload) =
      Normal {| type := "general"; message := "Screen is already being captured" |} /\
    getErrorInfo navigator (DOMException "OverconstrainedError" payload) =
      Normal {| type := "general";
                message := "Screen doesn't meet capture requirements" |} /\
    getErrorInfo navigator (DOMException "SecurityError" payload) =
      Normal {| type := "https"; message := "Security error accessing screen" |} ) /\
  forall name cat phrase,
    In (name, (cat, phrase)) spec_table ->
    exists info,
      getErrorInfo navigator (DOMException name payload) = Normal info /\
      type info = tag cat /\
      includes (toLowerCase (message info)) phrase = true.
Proof.
  intros Hc. split.
  - repeat split; rewrite getErrorInfo_DOMException by assumption; reflexivity.
  - intros name cat phrase Hin. simpl in Hin.
    repeat (destruct Hin as [Hin|Hin];
            [ injection Hin as <- <- <-;
              rewrite getErrorInfo_DOMException by assumption;
              eexists; split; [reflexivity|]; split; [reflexivity|];
              vm_compute; reflexivity | ]).
    destruct Hin.
Qed.

Lemma getErrorInfo_recognized_witness :
  getErrorInfo navigator_full (DOMException "NotAllowedError" "Permission denied") =
    Normal {| type := "permission"; message := "Screen sharing access denied" |}.
Proof.
  apply (getErrorInfo_recognized navigator_full "Permission denied"). reflexivity.
Defined.

(** C2. Without the capability surface every failure is classified as
    SecureContextRequired, and with the surface but without the
    capture-request function every failure is classified as Unsupported,
    whatever the failure carries. *)
Theorem getErrorInfo_environment_first (navigator : Navigator) (err : JsValue) :
  (mediaDevices navigator = None ->
   getErrorInfo navigator err =
     Normal {| type := tag SecureContextRequired;
               message := "Screen sharing requires a secure connection (HTTPS)" |}) /\
  (forall md, mediaDevices navigator = Some md -> getDisplayMedia md = false ->
   getErrorInfo navigator err =
     Normal {| type := tag Unsupported;
               message := "Screen sharing not supported in this browser" |}).
Proof.
  split.
  - apply getErrorInfo_no_surface.
  - intros md. apply getErrorInfo_no_function.
Qed.

(** C3. The classifier never throws: on every environment and every
    thrown value it completes normally with an [ErrorInfo] whose [type] is
    one of the four tags of [ERROR_TYPES]; past the environment checks, a
    value that is not a platform exception gets the generic pair. *)
Theorem getErrorInfo_total (navigator : Navigator) (err : JsValue) :
  exists info,
    getErrorInfo navigator err = Normal info /\
    In (type info) ERROR_TYPES.values /\
    (exists cat, type info = tag cat) /\
    (capable navigator -> instanceof_DOMException err = false ->
     info = {| type := tag General; message := "Failed to access screen" |} /\
     includes (toLowerCase (message info)) "failed to access" = true).
Proof.
  destruct (getErrorInfo_returns navigator err) as (info & Hinfo & Hin).
  exists info. split; [assumption|]. split; [assumption|]. split.
  - simpl in Hin. destruct Hin as [H|[H|[H|[H|[]]]]].
    + now exists SecureContextRequired.
    + now exists Unsupported.
    + now exists PermissionDenied.
    + now exists General.
  - intros Hc Hd. rewrite getErrorInfo_other in Hinfo by assumption.
    injection Hinfo as <-. split; [reflexivity | vm_compute; reflexivity].
Qed.

Lemma eqb_not_in (name : string) (l : list string) :
  ~ In name l -> forall x, In x l -> String.eqb name x = false.
Proof.
  intros Hn x Hx. apply String.eqb_neq. intros ->. contradiction.
Qed.

(** C5 does not hold as stated for a failure that has a name but is not a
    [DOMException]: the [TypeError] that the failed read of
    [addEventListener] throws is named "TypeError", which is none of the
    six names, and its classification does not mention that name. *)
Lemma getErrorInfo_unrecognized_counterexample :
  capable navigator_full /\
  member_name (cannot_read "addEventListener") = Normal (Some "TypeError") /\
  ~ In "TypeError" recognized_names /\
  getErrorInfo navigator_full (cannot_read "addEventListener") =
    Normal {| type := "general"; message := "Failed to access screen" |} /\
  includes "Failed to access screen" "TypeError" = false.
Proof.
  repeat split. simpl. intros H.
  repeat (destruct H as [H|H]; [discriminate H|]). exact H.
Qed.

(** C5, as amended.  With both environment checks passed, a failure that
    is an instance of [DOMException] and whose name is none of the six
    recognized ones is classified as General, and its message is "Screen
    sharing error: " followed by the name, so the name occurs in it
    verbatim.  A failure that is not an instance of [DOMException] is
    classified as General with the generic message, whatever its name. *)
Theorem getErrorInfo_unrecognized (navigator : Navigator) (name payload : string) :
  capable navigator ->
  ~ In name recognized_names ->
  getErrorInfo navigator (DOMException name payload) =
    Normal {| type := tag General; message := "Screen sharing error: " ++ name |} /\
  includes ("Screen sharing error: " +:+ name) name = true /\
  forall err, instanceof_DOMException err = false ->
    getErrorInfo navigator err =
      Normal {| type := tag General; message := "Failed to access screen" |}.
Proof.
  intros Hc Hn. split; [|split].
  - rewrite getErrorInfo_DOMException by assumption.
    pose proof (eqb_not_in name recognized_names Hn) as H.
    rewrite !H by (simpl; tauto). reflexivity.
  - apply includes_suffix.
  - intros err Hd. now apply getErrorInfo_other.
Qed.

Lemma getErrorInfo_unrecognized_witness :
  getErrorInfo navigator_full (DOMException "InvalidStateError" "") =
    Normal {| type := "general"; message := "Screen sharing error: InvalidStateError" |} /\
  includes "Screen sharing error: InvalidStateError" "InvalidStateError" = true /\
  forall err, instanceof_DOMException err = false ->
    getErrorInfo navigator_full err =
      Normal {| type := "general"; message := "Failed to access screen" |}.
Proof.
  apply (getErrorInfo_unrecognized navigator_full "InvalidStateError" "").
  - reflexivity.
  - simpl. intros H. repeat (destruct H as [H|H]; [discriminate H|]). exact H.
Defined.

(** ** The remediation table *)

Lemma troubleshootingData_lookup (t : string) :
  In t ERROR_TYPES.values ->
  exists entry, troubleshootingData !! t = Some entry /\
                title entry <> "" /\ items entry <> [].
Proof.
  simpl. intros [<-|[<-|[<-|[<-|[]]]]];
    (eexists; split; [vm_compute; reflexivity | split; discriminate]).
Qed.

(** C10. [troubleshootingData] has an entry with a title and at least one
    step under each of the four tags of [ERROR_TYPES]; so for every error
    the classifier produces, the lookup in [getTroubleshootingContent] is
    defined and the content is rendered from that entry, without a throw. *)
Theorem troubleshootingData_covers :
  (forall t, In t ERROR_TYPES.values ->
     exists entry, troubleshootingData !! t = Some entry /\
                   title entry <> "" /\ items entry <> []) /\
  (forall navigator err,
     exists info entry view,
       getErrorInfo navigator err = Normal info /\
       troubleshootingData !! type info = Some entry /\
       items entry <> [] /\
       getTroubleshootingContent (Some info) = Normal (Some view) /\
       heading view = title entry /\
       bullets view = map (fun item => "• " +:+ item) (items entry)).
Proof.
  split; [exact troubleshootingData_lookup|].
  intros navigator err.
  destruct (getErrorInfo_returns navigator err) as (info & Hinfo & Hin).
  destruct (troubleshootingData_lookup _ Hin) as (entry & Hentry & _ & Hitems).
  exists info, entry. eexists. split; [exact Hinfo|]. split; [exact Hentry|].
  split; [exact Hitems|]. unfold getTroubleshootingContent, troubleshootingData_at.
  rewrite Hentry.
  simpl. split; [reflexivity|]. split; reflexivity.
Qed.

(** ** The request: closed forms *)

Lemma getErrorInfo_classify navigator err :
  getErrorInfo navigator err = Normal (classify navigator err).
Proof.
  unfold classify.
  destruct (getErrorInfo_returns navigator err) as (info & -> & _). reflexivity.
Qed.

Arguments getErrorInfo : simpl never.

Ltac flatten_log := rewrite <- ?List.app_assoc; simpl.

Lemma requestScreenShare_unavailable navigator onPermissionGranted s0 :
  optional_getDisplayMedia (mediaDevices navigator) = false ->
  requestScreenShare navigator onPermissionGranted s0 =
    Ret tt {| isRequesting := false;
              error := Some (classify navigator NOT_SUPPORTED_error);
              log := log s0 ++ [A_setIsRequesting true; A_setError None]
                            ++ caught navigator NOT_SUPPORTED_error |}.
Proof.
  intros H. unfold requestScreenShare, try_catch_finally, mbind, M_bind.
  simpl. rewrite H. simpl.
  unfold NOT_SUPPORTED_error, caught.
  rewrite (getErrorInfo_classify navigator (JsError "Error" "NOT_SUPPORTED")).
  simpl. flatten_log. reflexivity.
Qed.

Lemma requestScreenShare_suspends navigator onPermissionGranted s0 :
  capable navigator ->
  exists k,
    requestScreenShare navigator onPermissionGranted s0 =
      Await {| requested := DISPLAY_CONSTRAINTS |}
            {| isRequesting := true; error := None;
               log := log s0 ++ [A_setIsRequesting true; A_setError None;
                                 A_getDisplayMedia DISPLAY_CONSTRAINTS] |}
            k /\
    forall st s',
      k st s' = Ret tt {| isRequesting := false;
                          error := resumed_error navigator onPermissionGranted st (error s');
                          log := log s' ++ resumed navigator onPermissionGranted st |}.
Proof.
  intros Hc. pose proof (capable_inv _ Hc) as Hmd.
  unfold requestScreenShare, try_catch_finally, call_getDisplayMedia, mbind, M_bind.
  simpl. rewrite Hmd. simpl. flatten_log.
  eexists. split; [reflexivity|].
  intros [stream|reason] s'; simpl.
  - unfold item0. destruct (getVideoTracks stream) as [|track rest]; simpl.
    + rewrite (getErrorInfo_classify navigator (cannot_read "addEventListener")).
      simpl. flatten_log. reflexivity.
    + destruct (onPermissionGranted stream) as [[]|thrown]; simpl.
      * flatten_log. reflexivity.
      * rewrite (getErrorInfo_classify navigator thrown). simpl.
        flatten_log. reflexivity.
  - rewrite (getErrorInfo_classify navigator reason). simpl.
    flatten_log. reflexivity.
Qed.

Lemma requestScreenShare_settled navigator onPermissionGranted s0 st :
  settle_with st (requestScreenShare navigator onPermissionGranted s0) =
    Ret tt {| isRequesting := false;
              error := request_error navigator onPermissionGranted st;
              log := log s0 ++ request_actions navigator onPermissionGranted st |}.
Proof.
  unfold request_actions, request_error.
  destruct (optional_getDisplayMedia (mediaDevices navigator)) eqn:H.
  - destruct (requestScreenShare_suspends navigator onPermissionGranted s0 H) as (k & -> & Hk).
    simpl. rewrite Hk. simpl. flatten_log. reflexivity.
  - rewrite requestScreenShare_unavailable by assumption. reflexivity.
Qed.

Lemma resumed_cases navigator onPermissionGranted st :
  ( exists stream track rest,
      st = Fulfilled stream /\ getVideoTracks stream = track :: rest /\
      onPermissionGranted stream = Normal tt /\
      resumed navigator onPermissionGranted st =
        [ A_addEventListener track "ended"; A_onPermissionGranted stream;
          A_setIsRequesting false ] /\
      forall stored, resumed_error navigator onPermissionGranted st stored = stored ) \/
  ( exists stream track rest thrown,
      st = Fulfilled stream /\ getVideoTracks stream = track :: rest /\
      onPermissionGranted stream = Abrupt thrown /\
      resumed navigator onPermissionGranted st =
        [ A_addEventListener track "ended"; A_onPermissionGranted stream ]
          ++ caught navigator thrown /\
      forall stored, resumed_error navigator onPermissionGranted st stored
                     = Some (classify navigator thrown) ) \/
  ( exists err,
      resumed navigator onPermissionGranted st = caught navigator err /\
      (forall stored, resumed_error navigator onPermissionGranted st stored
                      = Some (classify navigator err)) /\
      (forall reason, st = Rejected reason -> err = reason) /\
      (forall stream, st = Fulfilled stream ->
         getVideoTracks stream = [] /\ err = cannot_read "addEventListener") ).
Proof.
  destruct st as [stream|reason]; simpl.
  - destruct (getVideoTracks stream) as [|track rest] eqn:Ht.
    + right; right. exists (cannot_read "addEventListener").
      split; [reflexivity|]. split; [reflexivity|]. split; [discriminate|].
      intros stream' [= <-]. now split.
    + destruct (onPermissionGranted stream) as [[]|thrown] eqn:Hcb.
      * left. exists stream, track, rest. now repeat split.
      * right; left. exists stream, track, rest, thrown. now repeat split.
  - right; right. exists reason. split; [reflexivity|]. split; [reflexivity|].
    split; [now intros reason' [= <-] | discriminate].
Qed.

(** ** The request: what one invocation does *)

Lemma classify_unavailable navigator err :
  optional_getDisplayMedia (mediaDevices navigator) = false ->
  (mediaDevices navigator = None ->
   type (classify navigator err) = tag SecureContextRequired) /\
  (defined (mediaDevices navigator) = true ->
   type (classify navigator err) = tag Unsupported).
Proof.
  intros H. unfold classify. destruct (mediaDevices navigator) as [md|] eqn:Hmd.
  - simpl in H. rewrite (getErrorInfo_no_function _ md) by assumption.
    split; [discriminate | reflexivity].
  - rewrite getErrorInfo_no_surface by assumption.
    split; [reflexivity | discriminate].
Qed.

(** C4. When the capability surface or the capture-request function is
    missing, the invocation finishes at once, without suspending: it has
    stored an error whose category is SecureContextRequired (no surface) or
    Unsupported (surface without the function), it is no longer requesting,
    and none of its actions is a call of the platform capture function. *)
Theorem requestScreenShare_fails_without_prompt (navigator : Navigator)
    (onPermissionGranted : MediaStream -> Completion unit) (s0 : State) :
  optional_getDisplayMedia (mediaDevices navigator) = false ->
  exists info acts,
    requestScreenShare navigator onPermissionGranted s0 =
      Ret tt {| isRequesting := false; error := Some info; log := log s0 ++ acts |} /\
    List.filter is_prompt acts = [] /\
    (mediaDevices navigator = None -> type info = tag SecureContextRequired) /\
    (defined (mediaDevices navigator) = true -> type info = tag Unsupported).
Proof.
  intros H. eexists. eexists.
  split; [apply requestScreenShare_unavailable; assumption|].
  split; [reflexivity|]. now apply classify_unavailable.
Qed.

Lemma requestScreenShare_fails_without_prompt_witness :
  exists info acts,
    requestScreenShare navigator_insecure callback_returns initial =
      Ret tt {| isRequesting := false; error := Some info; log := log initial ++ acts |} /\
    List.filter is_prompt acts = [] /\
    (mediaDevices navigator_insecure = None -> type info = tag SecureContextRequired) /\
    (defined (mediaDevices navigator_insecure) = true -> type info = tag Unsupported).
Proof.
  apply (requestScreenShare_fails_without_prompt navigator_insecure callback_returns initial).
  reflexivity.
Defined.

Lemma filter_setError_resumed navigator onPermissionGranted st :
  List.filter is_setError (resumed navigator onPermissionGranted st) =
    match resumed_error navigator onPermissionGranted st None with
    | Some e => [A_setError (Some e)]
    | None => []
    end.
Proof.
  destruct st as [stream|reason]; simpl; [|reflexivity].
  destruct (getVideoTracks stream); [reflexivity|].
  destruct (onPermissionGranted stream); reflexivity.
Qed.

Lemma request_error_cases navigator onPermissionGranted st :
  (optional_getDisplayMedia (mediaDevices navigator) = false ->
   request_error navigator onPermissionGranted st
     = Some (classify navigator NOT_SUPPORTED_error)) /\
  (capable navigator ->
   (forall reason, st = Rejected reason ->
      request_error navigator onPermissionGranted st = Some (classify navigator reason)) /\
   (forall stream, st = Fulfilled stream -> getVideoTracks stream = [] ->
      request_error navigator onPermissionGranted st
        = Some (classify navigator (cannot_read "addEventListener"))) /\
   (forall stream track thrown,
      st = Fulfilled stream -> getVideoTracks stream !! 0%nat = Some track ->
      onPermissionGranted stream = Abrupt thrown ->
      request_error navigator onPermissionGranted st = Some (classify navigator thrown)) /\
   (forall stream track,
      st = Fulfilled stream -> getVideoTracks stream !! 0%nat = Some track ->
      onPermissionGranted stream = Normal tt ->
      request_error navigator onPermissionGranted st = None)).
Proof.
  unfold request_error, capable. split.
  - now intros ->.
  - intros ->. repeat split.
    + now intros reason ->.
    + intros stream -> Ht. simpl. now rewrite Ht.
    + intros stream track thrown -> Ht Hcb. simpl.
      destruct (getVideoTracks stream); [discriminate Ht|]. now rewrite Hcb.
    + intros stream track -> Ht Hcb. simpl.
      destruct (getVideoTracks stream); [discriminate Ht|]. now rewrite Hcb.
Qed.

(** C6. Every invocation first clears the stored error; a capture request,
    if one is issued, is issued right after that, with no error stored; and
    after the clearing the invocation stores an error at most once: exactly
    once when it ends with an error stored (that very error), and not at
    all when it ends with none.  Every failure does store one: a missing
    capability stores the classification of the "NOT_SUPPORTED" error, a
    rejection that of its reason, a stream without a video track that of
    the [TypeError] of the failed read, and a throw of
    [onPermissionGranted] that of the thrown value; only a stream handed to
    a callback that returns leaves none.  This holds from every state, in
    particular from one that still holds the error of an earlier attempt. *)
Theorem requestScreenShare_clears_then_sets_once
    (navigator : Navigator)
    (onPermissionGranted : MediaStream -> Completion unit) (s0 : State) (st : Settlement) :
  exists acts s,
    settle_with st (requestScreenShare navigator onPermissionGranted s0) = Ret tt s /\
    log s = log s0 ++ [A_setIsRequesting true; A_setError None] ++ acts /\
    length (List.filter is_setError acts) <= 1 /\
    List.filter is_setError acts =
      match error s with
      | Some e => [A_setError (Some e)]
      | None => []
      end /\
    (forall p s1 k,
       requestScreenShare navigator onPermissionGranted s0 = Await p s1 k ->
       error s1 = None /\
       log s1 = log s0 ++ [A_setIsRequesting true; A_setError None;
                           A_getDisplayMedia (requested p)]) /\
    (optional_getDisplayMedia (mediaDevices navigator) = false ->
       exists info,
         getErrorInfo navigator (JsError "Error" "NOT_SUPPORTED") = Normal info /\
         error s = Some info) /\
    (capable navigator ->
       (exists rest, acts = A_getDisplayMedia DISPLAY_CONSTRAINTS :: rest) /\
       (forall reason, st = Rejected reason ->
          exists info, getErrorInfo navigator reason = Normal info /\
                       error s = Some info) /\
       (forall stream, st = Fulfilled stream -> getVideoTracks stream = [] ->
          exists info,
            getErrorInfo navigator (cannot_read "addEventListener") = Normal info /\
            error s = Some info) /\
       (forall stream track thrown,
          st = Fulfilled stream -> getVideoTracks stream !! 0%nat = Some track ->
          onPermissionGranted stream = Abrupt thrown ->
          exists info, getErrorInfo navigator thrown = Normal info /\
                       error s = Some info) /\
       (forall stream track,
          st = Fulfilled stream -> getVideoTracks stream !! 0%nat = Some track ->
          onPermissionGranted stream = Normal tt ->
          error s = None)).
Proof.
  rewrite requestScreenShare_settled.
  destruct (request_error_cases navigator onPermissionGranted st) as [Hun Hcap].
  assert (Hstore : forall err,
            exists info, getErrorInfo navigator err = Normal info /\
                         Some (classify navigator err) = Some info)
    by (intros err; exists (classify navigator err);
        split; [apply getErrorInfo_classify | reflexivity]).
  unfold request_actions.
  destruct (optional_getDisplayMedia (mediaDevices navigator)) eqn:H.
  - destruct (Hcap H) as (Hrej & Hnotrack & Hthrows & Hreturns). clear Hun Hcap.
    exists (A_getDisplayMedia DISPLAY_CONSTRAINTS :: resumed navigator onPermissionGranted st).
    eexists. split; [reflexivity|]. split; [reflexivity|].
    cbn [List.filter is_setError error].
    assert (Hfilter : List.filter is_setError (resumed navigator onPermissionGranted st) =
              match request_error navigator onPermissionGranted st with
              | Some e => [A_setError (Some e)]
              | None => []
              end).
    { unfold request_error. rewrite H. apply filter_setError_resumed. }
    rewrite Hfilter.
    split; [destruct (request_error navigator onPermissionGranted st); simpl; lia|].
    split; [reflexivity|]. split.
    { intros p s1 k Hk.
      destruct (requestScreenShare_suspends navigator onPermissionGranted s0 H)
        as (k' & Hk' & _).
      rewrite Hk' in Hk. injection Hk as <- <- _. now split. }
    split; [discriminate|]. intros _. split; [eauto|]. repeat split.
    + intros reason Hst. rewrite (Hrej reason Hst). apply Hstore.
    + intros stream Hst Ht. rewrite (Hnotrack stream Hst Ht). apply Hstore.
    + intros stream track thrown Hst Ht Hcb.
      rewrite (Hthrows stream track thrown Hst Ht Hcb). apply Hstore.
    + intros stream track Hst Ht Hcb. exact (Hreturns stream track Hst Ht Hcb).
  - exists (caught navigator NOT_SUPPORTED_error).
    eexists. split; [reflexivity|]. split; [reflexivity|].
    cbn [error]. rewrite (Hun eq_refl).
    split; [simpl; lia|]. split; [reflexivity|]. split.
    { intros p s1 k Hk. rewrite requestScreenShare_unavailable in Hk by assumption.
      discriminate Hk. }
    split; [intros _; apply Hstore|]. unfold capable. rewrite H. discriminate.
Qed.




Lemma resumed_no_prompt navigator onPermissionGranted st :
  (forall c, ~ In (A_getDisplayMedia c) (resumed navigator onPermissionGranted st)) /\
  List.filter is_prompt (resumed navigator onPermissionGranted st) = [].
Proof.
  assert (H : forall err c, ~ In (A_getDisplayMedia c) (caught navigator err))
    by (intros err c Hin; simpl in Hin;
        repeat (destruct Hin as [Hin|Hin]; [discriminate Hin|]); destruct Hin).
  destruct (resumed_cases navigator onPermissionGranted st)
    as [(stream & track & rest & _ & _ & _ & -> & _)
       |[(stream & track & rest & thrown & _ & _ & _ & -> & _)|(err & -> & _)]].
  - split; [|reflexivity]. intros c Hin. simpl in Hin.
    repeat (destruct Hin as [Hin|Hin]; [discriminate Hin|]). destruct Hin.
  - split; [|reflexivity]. intros c Hin. simpl in Hin.
    destruct Hin as [Hin|[Hin|Hin]]; try discriminate Hin. now apply H in Hin.
  - split; [apply H | reflexivity].
Qed.

(** C9. The constraints are the fixed ones: width 1920, height 1080 and
    frame rate 60, each as ideal and as maximum, and no audio.  Every call
    of the platform capture function that an invocation makes passes
    exactly [DISPLAY_CONSTRAINTS]; with both environment checks passed the
    invocation makes one such call, and the promise it waits for is the one
    of that call. *)
Theorem requestScreenShare_constraints
    (navigator : Navigator)
    (onPermissionGranted : MediaStream -> Completion unit) (s0 : State) (st : Settlement) :
  ( ideal (width (video DISPLAY_CONSTRAINTS)) = 1920%Z /\
    max (width (video DISPLAY_CONSTRAINTS)) = 1920%Z /\
    ideal (height (video DISPLAY_CONSTRAINTS)) = 1080%Z /\
    max (height (video DISPLAY_CONSTRAINTS)) = 1080%Z /\
    ideal (frameRate (video DISPLAY_CONSTRAINTS)) = 60%Z /\
    max (frameRate (video DISPLAY_CONSTRAINTS)) = 60%Z /\
    audio DISPLAY_CONSTRAINTS = false ) /\
  ( exists acts s,
      settle_with st (requestScreenShare navigator onPermissionGranted s0) = Ret tt s /\
      log s = log s0 ++ acts /\
      (forall c, In (A_getDisplayMedia c) acts -> c = DISPLAY_CONSTRAINTS) /\
      (capable navigator ->
       List.filter is_prompt acts = [A_getDisplayMedia DISPLAY_CONSTRAINTS]) ) /\
  ( forall p s1 k,
      requestScreenShare navigator onPermissionGranted s0 = Await p s1 k ->
      requested p = DISPLAY_CONSTRAINTS ).
Proof.
  split; [repeat split; reflexivity|]. split.
  - rewrite requestScreenShare_settled. eexists. eexists.
    split; [reflexivity|]. split; [reflexivity|].
    unfold request_actions, capable.
    destruct (optional_getDisplayMedia (mediaDevices navigator)).
    + destruct (resumed_no_prompt navigator onPermissionGranted st) as [Hnone Hfilter].
      split.
      * intros c Hin. simpl in Hin.
        destruct Hin as [Hin|[Hin|[Hin|Hin]]]; try discriminate Hin.
        -- now injection Hin as <-.
        -- now apply Hnone in Hin.
      * intros _. simpl. now rewrite Hfilter.
    + split; [|discriminate].
      intros c Hin. simpl in Hin.
      repeat (destruct Hin as [Hin|Hin]; [discriminate Hin|]). destruct Hin.
  - intros p s1 k Hk.
    destruct (optional_getDisplayMedia (mediaDevices navigator)) eqn:H.
    + destruct (requestScreenShare_suspends navigator onPermissionGranted s0 H) as (k' & Hk' & _).
      rewrite Hk' in Hk. now injection Hk as <- _ _.
    + rewrite requestScreenShare_unavailable in Hk by assumption. discriminate Hk.
Qed.

(** ** The mounted dialog: at most one request in flight *)

Lemma count_app f l1 l2 : count f (l1 ++ l2) = count f l1 + count f l2.
Proof. unfold count. now rewrite List.filter_app, length_app. Qed.

Lemma count_resumed navigator onPermissionGranted st :
  count is_set (resumed navigator onPermissionGranted st) = 0 /\
  count is_clear (resumed navigator onPermissionGranted st) = 1.
Proof.
  destruct st as [stream|reason]; simpl; [|now split].
  destruct (getVideoTracks stream); [now split|].
  destruct (onPermissionGranted stream); now split.
Qed.

Section MountedProperties.
Variable navigator : Navigator.
Variable onPermissionGranted : MediaStream -> Completion unit.
Variable GlassButton_fires : bool -> bool.

Lemma invoke_inv d :
  pending d = [] ->
  count is_set (log (state d)) = count is_clear (log (state d)) ->
  dialog_inv navigator onPermissionGranted (invoke navigator onPermissionGranted d).
Proof.
  intros Hp Hcount. unfold invoke. rewrite Hp.
  destruct (optional_getDisplayMedia (mediaDevices navigator)) eqn:H.
  - destruct (requestScreenShare_suspends navigator onPermissionGranted (state d) H) as (k & -> & Hk).
    split.
    + right. exists {| requested := DISPLAY_CONSTRAINTS |}, k. now repeat split.
    + simpl. rewrite !count_app, Hcount. cbn. lia.
  - rewrite requestScreenShare_unavailable by assumption. split.
    + now left.
    + simpl. rewrite !count_app, Hcount. cbn. lia.
Qed.

Lemma step_inv d ev :
  dialog_inv navigator onPermissionGranted d ->
  dialog_inv navigator onPermissionGranted (step navigator onPermissionGranted GlassButton_fires d ev).
Proof.
  intros [Hpend Hcount]. destruct ev as [|i st]; simpl.
  - destruct Hpend as [Hp|(p & k & Hp & Hreq & Herr & Hk)].
    + destruct (retry_rendered (state d) && _); [|split; [now left|assumption]].
      apply invoke_inv; [assumption|]. rewrite Hp in Hcount. simpl in Hcount. lia.
    + unfold retry_rendered. rewrite Herr. simpl.
      split; [|assumption]. right. now exists p, k.
  - destruct Hpend as [Hp|(p & k & Hp & Hreq & Herr & Hk)].
    + rewrite Hp. simpl. split; [now left|assumption].
    + rewrite Hp. destruct i as [|i]; simpl.
      * rewrite Hk. simpl. split; [now left|].
        simpl. rewrite !count_app.
        destruct (count_resumed navigator onPermissionGranted st) as [-> ->].
        rewrite Hp in Hcount. simpl in Hcount. lia.
      * rewrite Hp in Hcount. split; [|rewrite Hp; assumption].
        right. now exists p, k.
Qed.

Lemma mount_inv : dialog_inv navigator onPermissionGranted (mount navigator onPermissionGranted).
Proof. apply invoke_inv; reflexivity. Qed.

Lemma foldl_step_inv evs d :
  dialog_inv navigator onPermissionGranted d ->
  dialog_inv navigator onPermissionGranted (foldl (step navigator onPermissionGranted GlassButton_fires) d evs).
Proof.
  revert d. induction evs as [|ev evs IH]; intros d Hd; simpl; [assumption|].
  apply IH, step_inv, Hd.
Qed.

Lemma run_inv evs : dialog_inv navigator onPermissionGranted (run navigator onPermissionGranted GlassButton_fires evs).
Proof. apply foldl_step_inv, mount_inv. Qed.
End MountedProperties.

Lemma filter_setIsRequesting_resumed navigator onPermissionGranted st :
  List.filter is_setIsRequesting (resumed navigator onPermissionGranted st)
    = [A_setIsRequesting false].
Proof.
  destruct st as [stream|reason]; simpl; [|reflexivity].
  destruct (getVideoTracks stream); [reflexivity|].
  destruct (onPermissionGranted stream); reflexivity.
Qed.

(** C7 does not hold as stated when the parent passes an
    [onPermissionGranted] of a new identity while a request is pending:
    the effect runs again and a second request is in flight.  When the
    first of the two is then rejected, the flag is cleared and the error
    stored although the second is still pending, so "Try Again" is shown,
    enabled, and a click starts yet another request. *)
Lemma isRequesting_set_then_cleared_once_counterexample :
  length (pending (dialog callback_changed)) = 2 /\
  length (pending (dialog callback_changed_then_rejected)) = 1 /\
  retry_rendered (state (dialog callback_changed_then_rejected)) = true /\
  retry_disabled (state (dialog callback_changed_then_rejected)) = false /\
  length (pending (dialog (react navigator_full negb callback_changed_then_rejected
                             (Happens ClickTryAgain)))) = 2.
Proof. repeat split. Qed.

(** C7, as amended.  One invocation sets [isRequesting] as its first action, hence
    before any call of the platform capture function, is still requesting
    while it is suspended at the prompt, and, whichever way the promise
    settles, clears the flag exactly once and touches it no more.  In a
    mounted dialog, driven by clicks on "Try Again" and by settlements in
    any order, at most one request is ever pending; while one is pending
    the dialog is requesting, so the button is disabled (it is not even
    rendered, no error being stored), and a click changes nothing; and
    the flag has been cleared once for every request that has finished.
    This holds for a dialog whose [onPermissionGranted] keeps its identity,
    so that the effect runs once, and whatever [GlassButton] does with
    [disabled]. *)
Theorem isRequesting_set_then_cleared_once
    (navigator : Navigator)
    (onPermissionGranted : MediaStream -> Completion unit)
    (GlassButton_fires : bool -> bool)
    (s0 : State) (st : Settlement) (evs : list Event) :
  ( exists acts s,
      settle_with st (requestScreenShare navigator onPermissionGranted s0) = Ret tt s /\
      log s = log s0 ++ A_setIsRequesting true :: acts /\
      List.filter is_setIsRequesting acts = [A_setIsRequesting false] /\
      isRequesting s = false ) /\
  ( forall p s1 k,
      requestScreenShare navigator onPermissionGranted s0 = Await p s1 k ->
      isRequesting s1 = true /\
      List.filter is_setIsRequesting (drop (length (log s0)) (log s1))
        = [A_setIsRequesting true] ) /\
  ( let d := run navigator onPermissionGranted GlassButton_fires evs in
    length (pending d) <= 1 /\
    (pending d <> [] ->
       isRequesting (state d) = true /\
       retry_disabled (state d) = true /\
       retry_rendered (state d) = false /\
       step navigator onPermissionGranted GlassButton_fires d ClickTryAgain = d) /\
    count is_set (log (state d)) =
      count is_clear (log (state d)) + length (pending d) ).
Proof.
  split; [|split].
  - rewrite requestScreenShare_settled. unfold request_actions.
    destruct (optional_getDisplayMedia (mediaDevices navigator)).
    + eexists. eexists. split; [reflexivity|]. split; [reflexivity|].
      split; [|reflexivity]. simpl. apply filter_setIsRequesting_resumed.
    + eexists. eexists. split; [reflexivity|]. split; [reflexivity|].
      split; reflexivity.
  - intros p s1 k Hk.
    destruct (optional_getDisplayMedia (mediaDevices navigator)) eqn:H.
    + destruct (requestScreenShare_suspends navigator onPermissionGranted s0 H) as (k' & Hk' & _).
      rewrite Hk' in Hk. injection Hk as _ <- _. split; [reflexivity|].
      simpl. now rewrite drop_app_length.
    + rewrite requestScreenShare_unavailable in Hk by assumption. discriminate Hk.
  - intros d. destruct (run_inv navigator onPermissionGranted GlassButton_fires evs) as [Hpend Hcount].
    fold d in Hpend, Hcount.
    destruct Hpend as [Hp|(p & k & Hp & Hreq & Herr & Hk)].
    + rewrite Hp. simpl. split; [lia|]. split; [congruence|].
      rewrite Hp in Hcount. exact Hcount.
    + split; [rewrite Hp; simpl; lia|]. split; [|exact Hcount].
      intros _. unfold retry_disabled, retry_rendered. rewrite Hreq, Herr.
      repeat split. simpl. unfold retry_rendered. now rewrite Herr.
Qed.

(** ** Values that are not platform exceptions

    The [switch] on the name is only reached by instances of
    [DOMException]: any other thrown value, named or not, gets the generic
    pair once the environment checks have passed. *)
Lemma getErrorInfo_TypeError :
  getErrorInfo navigator_full (JsError "TypeError" "video is required") =
    Normal {| type := "general"; message := "Failed to access screen" |}.
Proof. reflexivity. Qed.

(** A fulfilled promise whose stream has no video track ends in the
    [catch] block: reading [addEventListener] of [undefined] throws. *)
Lemma requestScreenShare_no_video_track :
  final_state (settle_with (Fulfilled {| stream_id := 1; getVideoTracks := [] |})
                 (requestScreenShare navigator_full callback_returns initial)) =
    {| isRequesting := false;
       error := Some {| type := "general"; message := "Failed to access screen" |};
       log := [ A_setIsRequesting true; A_setError None;
                A_getDisplayMedia DISPLAY_CONSTRAINTS;
                A_setError (Some {| type := "general";
                                    message := "Failed to access screen" |});
                A_console_error "Error accessing screen share:"
                  (cannot_read "addEventListener")
                  {| type := "general"; message := "Failed to access screen" |};
                A_setIsRequesting false ] |}.
Proof. reflexivity. Qed.

(** ** Runs of the definitions on concrete inputs *)

Example getErrorInfo_insecure_NotAllowedError :
  getErrorInfo navigator_insecure (DOMException "NotAllowedError" "Permission denied") =
    Normal {| type := "https";
              message := "Screen sharing requires a secure connection (HTTPS)" |}.
Proof. reflexivity. Qed.

Example getErrorInfo_no_function_null :
  getErrorInfo navigator_no_function JsNull =
    Normal {| type := "not-supported";
              message := "Screen sharing not supported in this browser" |}.
Proof. reflexivity. Qed.

Example getErrorInfo_full_undefined :
  getErrorInfo navigator_full JsUndefined =
    Normal {| type := "general"; message := "Failed to access screen" |}.
Proof. reflexivity. Qed.

Example requestScreenShare_no_function :
  requestScreenShare navigator_no_function callback_returns initial =
    Ret tt
      {| isRequesting := false;
         error := Some {| type := "not-supported";
                          message := "Screen sharing not supported in this browser" |};
         log := [ A_setIsRequesting true; A_setError None;
                  A_setError (Some {| type := "not-supported";
                                      message := "Screen sharing not supported in this browser" |});
                  A_console_error "Error accessing screen share:"
                    (JsError "Error" "NOT_SUPPORTED")
                    {| type := "not-supported";
                       message := "Screen sharing not supported in this browser" |};
                  A_setIsRequesting false ] |}.
Proof. reflexivity. Qed.

(** The user dismisses the prompt, then retries: the click during the
    first request is lost, the one after the failure starts a second
    request, and the stored error is cleared again. *)
Example run_dismiss_then_retry :
  let d := run navigator_full callback_returns negb
             [ ClickTryAgain;
               Settle 0 (Rejected (DOMException "NotAllowedError" "Permission denied"));
               ClickTryAgain ] in
  length (pending d) = 1 /\
  isRequesting (state d) = true /\
  error (state d) = None /\
  log (state d) =
    [ A_setIsRequesting true; A_setError None; A_getDisplayMedia DISPLAY_CONSTRAINTS;
      A_setError (Some {| type := "permission"; message := "Screen sharing access denied" |});
      A_console_error "Error accessing screen share:"
        (DOMException "NotAllowedError" "Permission denied")
        {| type := "permission"; message := "Screen sharing access denied" |};
      A_setIsRequesting false;
      A_setIsRequesting true; A_setError None; A_getDisplayMedia DISPLAY_CONSTRAINTS ].
Proof. repeat split. Qed.

Example getTroubleshootingContent_permission :
  getTroubleshootingContent
    (Some {| type := "permission"; message := "Screen sharing access denied" |}) =
  Normal (Some
    {| view_class := "border rounded-lg p-3 bg-red-900/20 border-red-500/30";
       heading_class := "text-xs font-semibold mb-2 text-red-400";
       heading := "🚫 Permission Issues";
       bullets_class := "text-xs space-y-1 text-red-300";
       bullets := [ "• Click 'Share' when the screen sharing dialog appears";
                    "• Select your game window or entire screen";
                    "• Make sure to select 'Share audio' if you want game sounds";
                    "• Check browser settings → Privacy & Security → Screen sharing" ] |}).
Proof. vm_compute. reflexivity. Qed.

(** * Further properties of the component *)

(** ** The classifier: which failures reach which category *)

(** Closes one case of a classification: the result is read off, and each
    equivalence is settled by the names and tags being distinct. *)
Ltac preimage_case :=
  eexists; split; [reflexivity|]; simpl;
  repeat split; intros;
  repeat match goal with
         | H : _ \/ _ |- _ => destruct H
         | H : _ /\ _ |- _ => destruct H
         | H : exists _, _ |- _ => destruct H
         end;
  try discriminate; try congruence; try tauto; eauto 7.

(** X1. The category of a classification tells where it came from: it is
    "https" exactly when the capability surface is missing or, with both
    environment checks passed, the failure is a [DOMException] named
    "SecurityError"; "not-supported" exactly when the surface is there
    without the capture function; "permission" exactly when, with both
    checks passed, the failure is a [DOMException] named "NotAllowedError"
    or "AbortError".  Everything else is "general". *)
Theorem getErrorInfo_category_preimage (navigator : Navigator) (err : JsValue) :
  exists info,
    getErrorInfo navigator err = Normal info /\
    (type info = "https" <->
       mediaDevices navigator = None \/
       (capable navigator /\ exists m, err = DOMException "SecurityError" m)) /\
    (type info = "not-supported" <->
       exists md, mediaDevices navigator = Some md /\ getDisplayMedia md = false) /\
    (type info = "permission" <->
       capable navigator /\
       exists m, err = DOMException "NotAllowedError" m \/
                 err = DOMException "AbortError" m).
Proof.
  destruct (mediaDevices navigator) as [md|] eqn:Hmd.
  - destruct (getDisplayMedia md) eqn:Hg.
    + assert (Hc : capable navigator) by (unfold capable; now rewrite Hmd).
      assert (Hns : ~ exists md', Some md = Some md' /\ getDisplayMedia md' = false)
        by (intros (md' & [= <-] & H); congruence).
      destruct (instanceof_DOMException err) eqn:Hd.
      * destruct err as [| |s|n m|n m]; try discriminate Hd.
        rewrite getErrorInfo_DOMException by assumption.
        destruct (String.eqb_spec n "NotAllowedError") as [->|N1]; [preimage_case|].
        destruct (String.eqb_spec n "NotFoundError") as [->|N2]; [preimage_case|].
        destruct (String.eqb_spec n "NotReadableError") as [->|N3]; [preimage_case|].
        destruct (String.eqb_spec n "OverconstrainedError") as [->|N4]; [preimage_case|].
        destruct (String.eqb_spec n "SecurityError") as [->|N5]; [preimage_case|].
        destruct (String.eqb_spec n "AbortError") as [->|N6]; [preimage_case|].
        preimage_case.
      * rewrite getErrorInfo_other by assumption.
        destruct err; try discriminate Hd; preimage_case.
    + rewrite (getErrorInfo_no_function _ md) by assumption.
      assert (Hnc : ~ capable navigator)
        by (unfold capable; rewrite Hmd; simpl; congruence).
      preimage_case.
  - rewrite getErrorInfo_no_surface by assumption.
    assert (Hnc : ~ capable navigator)
      by (unfold capable; rewrite Hmd; simpl; congruence).
    preimage_case.
Qed.

(** X2. The message of a classification is never empty and never carries
    the text of the failure: it is one of the nine literal messages, or,
    for a [DOMException] whose name is not a [case] label (with both
    environment checks passed), "Screen sharing error: " followed by that
    name.  The result does not depend on the message of a [DOMException],
    nor on anything in a value that is not a [DOMException]. *)
Theorem getErrorInfo_message_source (navigator : Navigator) (err : JsValue) :
  ( exists info,
      getErrorInfo navigator err = Normal info /\
      message info <> "" /\
      ( In (message info) literal_messages \/
        exists n m, err = DOMException n m /\ capable navigator /\
                    ~ In n recognized_names /\
                    message info = "Screen sharing error: " +:+ n ) ) /\
  ( forall n m, err = DOMException n m ->
      forall m', getErrorInfo navigator (DOMException n m') = getErrorInfo navigator err ) /\
  ( instanceof_DOMException err = false ->
      forall err', instanceof_DOMException err' = false ->
        getErrorInfo navigator err' = getErrorInfo navigator err ).
Proof.
  split; [|split].
  - destruct (mediaDevices navigator) as [md|] eqn:Hmd.
    + destruct (getDisplayMedia md) eqn:Hg.
      * assert (Hc : capable navigator) by (unfold capable; now rewrite Hmd).
        destruct (instanceof_DOMException err) eqn:Hd.
        -- destruct err as [| |s|n m|n m]; try discriminate Hd.
           rewrite getErrorInfo_DOMException by assumption.
           destruct (String.eqb_spec n "NotAllowedError") as [->|N1];
             [eexists; split; [reflexivity|]; split; [discriminate | left; simpl; tauto]|].
           destruct (String.eqb_spec n "NotFoundError") as [->|N2];
             [eexists; split; [reflexivity|]; split; [discriminate | left; simpl; tauto]|].
           destruct (String.eqb_spec n "NotReadableError") as [->|N3];
             [eexists; split; [reflexivity|]; split; [discriminate | left; simpl; tauto]|].
           destruct (String.eqb_spec n "OverconstrainedError") as [->|N4];
             [eexists; split; [reflexivity|]; split; [discriminate | left; simpl; tauto]|].
           destruct (String.eqb_spec n "SecurityError") as [->|N5];
             [eexists; split; [reflexivity|]; split; [discriminate | left; simpl; tauto]|].
           destruct (String.eqb_spec n "AbortError") as [->|N6];
             [eexists; split; [reflexivity|]; split; [discriminate | left; simpl; tauto]|].
           eexists; split; [reflexivity|]. split; [discriminate|].
           right. exists n, m. repeat split; try assumption.
           simpl. intros H. repeat (destruct H as [H|H]; [congruence|]). exact H.
        -- rewrite getErrorInfo_other by assumption.
           eexists; split; [reflexivity|]; split; [discriminate | left; simpl; tauto].
      * rewrite (getErrorInfo_no_function _ md) by assumption.
        eexists; split; [reflexivity|]; split; [discriminate | left; simpl; tauto].
    + rewrite getErrorInfo_no_surface by assumption.
      eexists; split; [reflexivity|]; split; [discriminate | left; simpl; tauto].
  - intros n m -> m'. unfold getErrorInfo.
    destruct (mediaDevices navigator) as [[[]]|]; reflexivity.
  - intros Hd err' Hd'. unfold getErrorInfo.
    destruct (mediaDevices navigator) as [[[]]|]; simpl; try reflexivity.
    now rewrite Hd, Hd'.
Qed.

(** ** The styling and the remediation content *)

(** X3. [getErrorStyling] keeps one colour family throughout: for a
    security issue each of its five class strings mentions orange and none
    mentions red, and otherwise the other way round; and the frame of the
    error box and the frame of the troubleshooting box differ in their
    padding only. *)
Theorem getErrorStyling_one_colour (isSecurityIssue : bool) :
  let styling := getErrorStyling isSecurityIssue in
  Forall (fun class =>
            includes class "orange" = isSecurityIssue /\
            includes class "red" = negb isSecurityIssue)
         [ container styling; text styling;
           bg (troubleshooting styling);
           title_class (troubleshooting styling);
           list_class (troubleshooting styling) ] /\
  exists frame,
    container styling = "border rounded-lg p-4 " +:+ frame /\
    bg (troubleshooting styling) = "border rounded-lg p-3 " +:+ frame.
Proof.
  destruct isSecurityIssue; simpl; split.
  - repeat constructor; vm_compute; reflexivity.
  - eexists; split; reflexivity.
  - repeat constructor; vm_compute; reflexivity.
  - eexists; split; reflexivity.
Qed.

Lemma troubleshootingData_missing (t : string) :
  ~ In t ERROR_TYPES.values -> troubleshootingData !! t = None.
Proof.
  intros H. simpl in H. unfold troubleshootingData.
  rewrite !lookup_insert_ne by (intros Heq; apply H; rewrite <- Heq; tauto).
  apply lookup_empty.
Qed.

(** X4. The own keys of [troubleshootingData] are exactly the four tags
    of [ERROR_TYPES].  [getTroubleshootingContent] returns [null] exactly
    for no error; for an error with one of the four tags it returns the
    content of that tag's entry, one bullet per item and in the same order;
    and for an error with any other tag it throws a [TypeError]: from
    calling [map] on the missing [items] when the tag names a member that
    the object inherits from [Object.prototype] (such as "constructor"),
    and from reading [title] of [undefined] otherwise. *)
Theorem getTroubleshootingContent_cases (error : option ErrorInfo) :
  (forall t, is_Some (troubleshootingData !! t) <-> In t ERROR_TYPES.values) /\
  match getTroubleshootingContent error with
  | Normal None => error = None
  | Normal (Some view) =>
      exists e entry,
        error = Some e /\ In (type e) ERROR_TYPES.values /\
        troubleshootingData !! type e = Some entry /\
        heading view = title entry /\
        length (bullets view) = length (items entry) /\
        forall i item, items entry !! i = Some item ->
                       bullets view !! i = Some ("• " +:+ item)
  | Abrupt thrown =>
      exists e,
        error = Some e /\ ~ In (type e) ERROR_TYPES.values /\
        ( (In (type e) Object_prototype_keys /\ thrown = cannot_read "map") \/
          (~ In (type e) Object_prototype_keys /\ thrown = cannot_read "title") )
  end.
Proof.
  assert (Hkeys : forall t, is_Some (troubleshootingData !! t) <-> In t ERROR_TYPES.values).
  { intros t. split.
    - intros Hs. destruct (in_dec String.string_dec t ERROR_TYPES.values) as [Hin|Hn];
        [assumption|].
      rewrite (troubleshootingData_missing t Hn) in Hs. now destruct Hs.
    - intros Hin. destruct (troubleshootingData_lookup t Hin) as (entry & -> & _). eauto. }
  split; [exact Hkeys|].
  destruct error as [e|]; [|reflexivity].
  unfold getTroubleshootingContent, troubleshootingData_at.
  destruct (troubleshootingData !! type e) as [entry|] eqn:Hentry; simpl.
  - exists e, entry. split; [reflexivity|]. split; [apply Hkeys; eauto|].
    split; [assumption|]. split; [reflexivity|]. split; [apply length_map|].
    intros i item Hi. rewrite list_lookup_fmap, Hi. reflexivity.
  - assert (Hnot : ~ In (type e) ERROR_TYPES.values).
    { intros Hin. apply Hkeys in Hin. rewrite Hentry in Hin. now destruct Hin. }
    case_bool_decide as Hproto; simpl; exists e; (split; [reflexivity|]);
      (split; [exact Hnot|]); rewrite list_elem_of_In in Hproto;
      [left | right]; (split; [exact Hproto | reflexivity]).
Qed.

(** An error whose tag is "constructor" finds [Object] under that name:
    its [title] is [undefined] and the throw comes from [items.map]. *)
Example getTroubleshootingContent_constructor :
  getTroubleshootingContent (Some {| type := "constructor"; message := "" |}) =
    Abrupt (cannot_read "map").
Proof. vm_compute. reflexivity. Qed.

(** ** One invocation: the callback, the observer and the console *)


(** X6. A fulfilled promise whose stream has no video track is treated as
    a failure: reading [addEventListener] of [undefined] throws inside the
    [try], so the invocation stores the generic error, logs it, clears the
    flag, and neither registers an observer nor calls
    [onPermissionGranted]. *)
Theorem requestScreenShare_stream_without_video
    (navigator : Navigator)
    (onPermissionGranted : MediaStream -> Completion unit) (s0 : State) (stream : MediaStream) :
  capable navigator ->
  getVideoTracks stream = [] ->
  let info := {| type := "general"; message := "Failed to access screen" |} in
  settle_with (Fulfilled stream) (requestScreenShare navigator onPermissionGranted s0) =
    Ret tt {| isRequesting := false;
              error := Some info;
              log := log s0 ++
                [ A_setIsRequesting true; A_setError None;
                  A_getDisplayMedia DISPLAY_CONSTRAINTS;
                  A_setError (Some info);
                  A_console_error "Error accessing screen share:"
                    (cannot_read "addEventListener") info;
                  A_setIsRequesting false ] |}.
Proof.
  intros Hc Ht info. rewrite requestScreenShare_settled.
  unfold request_actions, request_error. rewrite Hc. simpl. rewrite Ht.
  unfold caught, classify.
  rewrite getErrorInfo_other by (assumption || reflexivity). reflexivity.
Qed.

Lemma requestScreenShare_stream_without_video_witness :
  error (final_state
           (settle_with (Fulfilled {| stream_id := 3; getVideoTracks := [] |})
              (requestScreenShare navigator_full callback_returns initial))) =
    Some {| type := "general"; message := "Failed to access screen" |}.
Proof.
  rewrite (requestScreenShare_stream_without_video navigator_full callback_returns initial
             {| stream_id := 3; getVideoTracks := [] |});
    reflexivity.
Defined.

(** X7. Whenever an invocation stores an error it reports it at once:
    [setError(errorInfo)] is followed directly by one [console.error] that
    carries the caught value and that same [errorInfo], which is the
    classification of the caught value; a rejection reason is passed on
    unchanged.  An invocation that stores no error writes nothing to the
    console. *)
Theorem requestScreenShare_reports_what_it_stores
    (navigator : Navigator)
    (onPermissionGranted : MediaStream -> Completion unit) (s0 : State) (st : Settlement) :
  exists acts s,
    settle_with st (requestScreenShare navigator onPermissionGranted s0) = Ret tt s /\
    log s = log s0 ++ [A_setIsRequesting true; A_setError None] ++ acts /\
    match error s with
    | None => List.filter (fun a => is_setError a || is_console_error a) acts = []
    | Some info =>
        exists err pre,
          getErrorInfo navigator err = Normal info /\
          acts = pre ++ [ A_setError (Some info);
                          A_console_error "Error accessing screen share:" err info;
                          A_setIsRequesting false ] /\
          List.filter (fun a => is_setError a || is_console_error a) pre = [] /\
          (forall reason, capable navigator -> st = Rejected reason -> err = reason)
    end.
Proof.
  rewrite requestScreenShare_settled.
  unfold request_actions, request_error, capable.
  destruct (optional_getDisplayMedia (mediaDevices navigator)) eqn:Hcap.
  - exists (A_getDisplayMedia DISPLAY_CONSTRAINTS :: resumed navigator onPermissionGranted st).
    eexists. split; [reflexivity|]. split; [reflexivity|]. cbn [error].
    destruct (resumed_cases navigator onPermissionGranted st)
      as [(stream & track & rest & -> & Ht & Hcb & Hr & He)
         |[(stream & track & rest & thrown & -> & Ht & Hcb & Hr & He)
          |(err & Hr & He & Hrej & _)]].
    + rewrite He, Hr. reflexivity.
    + rewrite He, Hr.
      exists thrown, [ A_getDisplayMedia DISPLAY_CONSTRAINTS;
                       A_addEventListener track "ended";
                       A_onPermissionGranted stream ].
      split; [apply getErrorInfo_classify|]. split; [reflexivity|].
      split; [reflexivity|]. intros reason _ H. discriminate H.
    + rewrite He, Hr. exists err, [A_getDisplayMedia DISPLAY_CONSTRAINTS].
      split; [apply getErrorInfo_classify|]. split; [reflexivity|].
      split; [reflexivity|]. intros reason _. apply Hrej.
  - exists (caught navigator NOT_SUPPORTED_error).
    eexists. split; [reflexivity|]. split; [reflexivity|]. cbn [error].
    exists NOT_SUPPORTED_error, []. split; [apply getErrorInfo_classify|].
    split; [reflexivity|]. split; [reflexivity|]. intros reason H. discriminate H.
Qed.


(** ** The mounted dialog: its three situations *)

Lemma classify_type navigator err : In (type (classify navigator err)) ERROR_TYPES.values.
Proof.
  unfold classify.
  destruct (getErrorInfo_returns navigator err) as (info & -> & Hin). exact Hin.
Qed.

Section MountedModes.
Variable navigator : Navigator.
Variable onPermissionGranted : MediaStream -> Completion unit.
Variable GlassButton_fires : bool -> bool.

Lemma invoke_mode d :
  pending d = [] -> dialog_mode navigator onPermissionGranted (invoke navigator onPermissionGranted d).
Proof.
  intros Hp. unfold invoke. rewrite Hp.
  destruct (optional_getDisplayMedia (mediaDevices navigator)) eqn:H.
  - destruct (requestScreenShare_suspends navigator onPermissionGranted (state d) H) as (k & -> & Hk).
    right. exists {| requested := DISPLAY_CONSTRAINTS |}, k. now repeat split.
  - rewrite requestScreenShare_unavailable by assumption.
    left. simpl. repeat split. right. eauto.
Qed.

Lemma step_mode d ev :
  dialog_mode navigator onPermissionGranted d ->
  dialog_mode navigator onPermissionGranted (step navigator onPermissionGranted GlassButton_fires d ev).
Proof.
  intros Hd. destruct ev as [|i st]; simpl.
  - destruct Hd as [(Hp & Hreq & Herr)|(p & k & Hp & Hreq & Herr & Hk)].
    + destruct (retry_rendered (state d) && _).
      * now apply invoke_mode.
      * left. now repeat split.
    + unfold retry_rendered. rewrite Herr. simpl. right. now exists p, k.
  - destruct Hd as [(Hp & Hreq & Herr)|(p & k & Hp & Hreq & Herr & Hk)].
    + rewrite Hp. simpl. left. now repeat split.
    + rewrite Hp. destruct i as [|i]; simpl.
      * rewrite Hk, Herr. simpl. left. repeat split.
        destruct (resumed_cases navigator onPermissionGranted st)
          as [(stream & track & rest & _ & _ & _ & _ & He)
             |[(stream & track & rest & thrown & _ & _ & _ & _ & He)
              |(err & _ & He & _)]];
          rewrite He; eauto.
      * right. exists p, k. now rewrite Hp.
Qed.

Lemma foldl_step_mode evs d :
  dialog_mode navigator onPermissionGranted d ->
  dialog_mode navigator onPermissionGranted (foldl (step navigator onPermissionGranted GlassButton_fires) d evs).
Proof.
  revert d. induction evs as [|ev evs IH]; intros d Hd; simpl; [assumption|].
  apply IH, step_mode, Hd.
Qed.

Lemma run_mode evs : dialog_mode navigator onPermissionGranted (run navigator onPermissionGranted GlassButton_fires evs).
Proof. apply foldl_step_mode, invoke_mode. reflexivity. Qed.
End MountedModes.

(** X9. In a mounted dialog [isRequesting] tells exactly whether a request
    is in flight: it is true if and only if a promise is pending.  While it
    is true no error is stored, and an error that is stored is always a
    result of [getErrorInfo]. *)
Theorem isRequesting_iff_pending
    (navigator : Navigator)
    (onPermissionGranted : MediaStream -> Completion unit)
    (GlassButton_fires : bool -> bool) (evs : list Event) :
  let d := run navigator onPermissionGranted GlassButton_fires evs in
  (isRequesting (state d) = true <-> pending d <> []) /\
  (isRequesting (state d) = true -> error (state d) = None) /\
  (forall info, error (state d) = Some info ->
     exists err, getErrorInfo navigator err = Normal info).
Proof.
  intros d.
  destruct (run_mode navigator onPermissionGranted GlassButton_fires evs)
    as [(Hp & Hreq & Herr)|(p & k & Hp & Hreq & Herr & Hk)]; fold d in Hp, Hreq, Herr.
  - rewrite Hp, Hreq. split; [split; [discriminate | congruence]|].
    split; [discriminate|]. intros info Hinfo.
    destruct Herr as [Herr|(err & Herr)]; [congruence|].
    exists err. rewrite Herr in Hinfo. injection Hinfo as <-.
    apply getErrorInfo_classify.
  - rewrite Hp, Hreq, Herr. split; [split; [discriminate | reflexivity]|].
    split; [reflexivity | discriminate].
Qed.

(** ** What the dialog shows *)

Lemma render_requesting location s :
  isRequesting s = true -> error s = None ->
  render location s =
    Normal {| view_bgColor := GLASS_EFFECTS.COLORS.DEFAULT_BG;
              view_icon := renderIcon s;
              view_title := "Requesting Screen Share Access";
              view_description :=
                "Please select your game window or screen to share for FPS commentary...";
              view_error_box := None;
              view_requesting_hint := true;
              view_panel := None |}.
Proof.
  intros Hreq Herr. unfold render, getTitle, getDescription, errorStyling.
  rewrite Herr, Hreq. reflexivity.
Qed.

Lemma render_at_rest location s :
  isRequesting s = false -> error s = None ->
  render location s =
    Normal {| view_bgColor := GLASS_EFFECTS.COLORS.DEFAULT_BG;
              view_icon := renderIcon s;
              view_title := "Screen Share Permission Required";
              view_description :=
                "This app requires screen sharing access to provide live commentary on your FPS gameplay. Please grant permission to continue.";
              view_error_box := None;
              view_requesting_hint := false;
              view_panel := None |}.
Proof.
  intros Hreq Herr. unfold render, getTitle, getDescription, errorStyling.
  rewrite Herr, Hreq. reflexivity.
Qed.

Lemma render_failed location s info :
  isRequesting s = false -> error s = Some info ->
  In (type info) ERROR_TYPES.values ->
  exists v box panel content entry frame,
    render location s = Normal v /\
    view_error_box v = Some box /\
    button_disabled box = false /\
    view_panel v = Some panel /\
    panel_content panel = Some content /\
    troubleshootingData !! type info = Some entry /\
    heading content = title entry /\
    box_class box = "border rounded-lg p-4 " +:+ frame /\
    view_class content = "border rounded-lg p-3 " +:+ frame /\
    view_requesting_hint v = false /\
    view_title v = "Screen Share Access Required" /\
    view_description v = message info /\
    view_bgColor v = GLASS_EFFECTS.COLORS.ERROR_BG /\
    view_icon v = renderIcon s.
Proof.
  intros Hreq Herr Hin.
  destruct (troubleshootingData_lookup _ Hin) as (entry & Hentry & _).
  unfold render, getTitle, getDescription, errorStyling, getTroubleshootingContent,
    troubleshootingData_at, isSecurityIssue.
  rewrite Herr, Hreq, Hentry. simpl.
  destruct (String.eqb (type info) ERROR_TYPES.HTTPS); simpl;
    do 6 eexists; repeat split; reflexivity.
Qed.

(** X10. Whatever has happened to a mounted dialog, rendering it does not
    throw: the lookup in [troubleshootingData] that
    [getTroubleshootingContent] makes is always defined, because a stored
    error always comes from [getErrorInfo].  When the troubleshooting
    panel is shown its content is there, taken from the entry of the stored
    error's tag, and the error box and the troubleshooting box are framed
    in the same colours. *)
Theorem render_never_throws
    (navigator : Navigator)
    (onPermissionGranted : MediaStream -> Completion unit)
    (GlassButton_fires : bool -> bool)
    (location : Location) (evs : list Event) :
  let s := state (run navigator onPermissionGranted GlassButton_fires evs) in
  exists v,
    render location s = Normal v /\
    (view_panel v = None <-> error s = None) /\
    (forall info, error s = Some info ->
       exists box panel content entry frame,
         view_error_box v = Some box /\
         view_panel v = Some panel /\
         panel_content panel = Some content /\
         troubleshootingData !! type info = Some entry /\
         heading content = title entry /\
         box_class box = "border rounded-lg p-4 " +:+ frame /\
         view_class content = "border rounded-lg p-3 " +:+ frame).
Proof.
  intros s.
  destruct (run_mode navigator onPermissionGranted GlassButton_fires evs)
    as [(Hp & Hreq & Herr)|(p & k & Hp & Hreq & Herr & Hk)];
    fold s in Hreq, Herr.
  - destruct Herr as [Herr|(err & Herr)].
    + rewrite render_at_rest by assumption. eexists. split; [reflexivity|].
      rewrite Herr. split; [now split | discriminate].
    + destruct (render_failed location s _ Hreq Herr (classify_type navigator err))
        as (v & box & panel & content & entry & frame & Hv & Hbox & _ & Hpanel & Hc
            & Hentry & Hhead & Hframe1 & Hframe2 & _).
      exists v. split; [assumption|]. rewrite Herr, Hpanel.
      split; [split; discriminate|].
      intros info [= <-]. exists box, panel, content, entry, frame. now repeat split.
  - rewrite render_requesting by assumption. eexists. split; [reflexivity|].
    rewrite Herr. split; [now split | discriminate].
Qed.

(** X11. A mounted dialog shows exactly one of three faces.  Requesting:
    the spinner and the hint, with no error box and no troubleshooting
    panel.  Failed: the error box with the "Try Again" button, which is
    then never disabled, the troubleshooting panel, the stored message as
    the description, and the error background.  At rest: none of these.
    In particular the spinner and the error box are never shown together. *)
Theorem render_three_faces
    (navigator : Navigator)
    (onPermissionGranted : MediaStream -> Completion unit)
    (GlassButton_fires : bool -> bool)
    (location : Location) (evs : list Event) :
  let s := state (run navigator onPermissionGranted GlassButton_fires evs) in
  exists v,
    render location s = Normal v /\
    ( ( view_requesting_hint v = true /\
        (exists class, view_icon v = Spinner class) /\
        view_title v = "Requesting Screen Share Access" /\
        view_error_box v = None /\ view_panel v = None /\
        view_bgColor v = GLASS_EFFECTS.COLORS.DEFAULT_BG ) \/
      ( view_requesting_hint v = false /\
        (exists c1 c2, view_icon v = Glyph c1 c2 CrossedCircle) /\
        view_title v = "Screen Share Access Required" /\
        (exists info, error s = Some info /\ view_description v = message info) /\
        (exists box, view_error_box v = Some box /\ button_disabled box = false) /\
        (exists panel, view_panel v = Some panel) /\
        view_bgColor v = GLASS_EFFECTS.COLORS.ERROR_BG ) \/
      ( view_requesting_hint v = false /\
        (exists c1 c2, view_icon v = Glyph c1 c2 Monitor) /\
        view_title v = "Screen Share Permission Required" /\
        view_error_box v = None /\ view_panel v = None /\
        view_bgColor v = GLASS_EFFECTS.COLORS.DEFAULT_BG ) ).
Proof.
  intros s.
  destruct (run_mode navigator onPermissionGranted GlassButton_fires evs)
    as [(Hp & Hreq & Herr)|(p & k & Hp & Hreq & Herr & Hk)];
    fold s in Hreq, Herr.
  - destruct Herr as [Herr|(err & Herr)].
    + rewrite render_at_rest by assumption. eexists. split; [reflexivity|].
      right; right. unfold renderIcon. rewrite Hreq, Herr. simpl.
      repeat split; eauto.
    + destruct (render_failed location s _ Hreq Herr (classify_type navigator err))
        as (v & box & panel & content & entry & frame & Hv & Hbox & Hdis & Hpanel & _
            & _ & _ & _ & _ & Hhint & Htitle & Hdesc & Hbg & Hicon).
      exists v. split; [assumption|]. right; left.
      split; [assumption|]. split.
      { rewrite Hicon. unfold renderIcon. rewrite Hreq, Herr. simpl. eauto. }
      split; [assumption|]. split; [eauto|]. split; [eauto|]. split; [eauto | assumption].
  - rewrite render_requesting by assumption. eexists. split; [reflexivity|].
    left. unfold renderIcon. rewrite Hreq. simpl. repeat split; eauto.
Qed.

(** ** The mounted dialog: settlements, retries and what is never done *)

Lemma run_snoc navigator onPermissionGranted fires evs ev :
  run navigator onPermissionGranted fires (evs ++ [ev]) = step navigator onPermissionGranted fires (run navigator onPermissionGranted fires evs) ev.
Proof. unfold run. apply foldl_snoc. Qed.

Lemma settle_pending navigator onPermissionGranted fires evs st :
  pending (run navigator onPermissionGranted fires evs) <> [] ->
  let d := run navigator onPermissionGranted fires evs in
  let d' := run navigator onPermissionGranted fires (evs ++ [Settle 0 st]) in
  pending d' = [] /\
  isRequesting (state d') = false /\
  error (state d') = resumed_error navigator onPermissionGranted st None /\
  log (state d') = log (state d) ++ resumed navigator onPermissionGranted st.
Proof.
  intros Hne d d'. unfold d'. rewrite run_snoc. fold d.
  destruct (run_mode navigator onPermissionGranted fires evs)
    as [(Hp & _)|(p & k & Hp & Hreq & Herr & Hk)]; fold d in Hp; [contradiction|].
  fold d in Herr. simpl. rewrite Hp. simpl. rewrite Hk, Herr. now repeat split.
Qed.

(** X12. When the pending request of a mounted dialog is rejected, the
    dialog comes to rest with the classification of the rejection reason
    stored, and shows it: the description is the classification's message,
    under the title "Screen Share Access Required", with the "Try Again"
    button enabled. *)
Theorem rejection_is_shown
    (navigator : Navigator)
    (onPermissionGranted : MediaStream -> Completion unit)
    (GlassButton_fires : bool -> bool)
    (location : Location) (evs : list Event) (reason : JsValue) :
  pending (run navigator onPermissionGranted GlassButton_fires evs) <> [] ->
  let d' := run navigator onPermissionGranted GlassButton_fires (evs ++ [Settle 0 (Rejected reason)]) in
  exists info v box,
    getErrorInfo navigator reason = Normal info /\
    error (state d') = Some info /\
    pending d' = [] /\
    isRequesting (state d') = false /\
    render location (state d') = Normal v /\
    view_title v = "Screen Share Access Required" /\
    view_description v = message info /\
    view_error_box v = Some box /\
    button_disabled box = false.
Proof.
  intros Hne d'.
  destruct (settle_pending navigator onPermissionGranted GlassButton_fires evs (Rejected reason) Hne)
    as (Hp & Hreq & Herr & _).
  fold d' in Hp, Hreq, Herr. simpl in Herr.
  destruct (render_failed location (state d') _ Hreq Herr (classify_type navigator reason))
    as (v & box & panel & content & entry & frame & Hv & Hbox & Hdis & _ & _
        & _ & _ & _ & _ & _ & Htitle & Hdesc & _).
  exists (classify navigator reason), v, box.
  split; [apply getErrorInfo_classify|]. now repeat split.
Qed.

Lemma rejection_is_shown_witness :
  exists info v box,
    getErrorInfo navigator_full (DOMException "AbortError" "") = Normal info /\
    error (state (run navigator_full callback_returns negb
                    ([] ++ [Settle 0 (Rejected (DOMException "AbortError" ""))])))
      = Some info /\
    pending (run navigator_full callback_returns negb
               ([] ++ [Settle 0 (Rejected (DOMException "AbortError" ""))])) = [] /\
    isRequesting (state (run navigator_full callback_returns negb
                    ([] ++ [Settle 0 (Rejected (DOMException "AbortError" ""))])))
      = false /\
    render {| protocol := "http:"; host := "example.org" |}
      (state (run navigator_full callback_returns negb
                ([] ++ [Settle 0 (Rejected (DOMException "AbortError" ""))])))
      = Normal v /\
    view_title v = "Screen Share Access Required" /\
    view_description v = message info /\
    view_error_box v = Some box /\
    button_disabled box = false.
Proof.
  apply (rejection_is_shown navigator_full callback_returns negb
           {| protocol := "http:"; host := "example.org" |} []
           (DOMException "AbortError" "")).
  simpl. discriminate.
Defined.

(** X13. When the pending request of a mounted dialog (whose
    [onPermissionGranted] keeps its identity) is fulfilled with a stream
    that has a video track, the dialog registers the observer, hands
    the stream to [onPermissionGranted] and clears the flag.  When the
    callback returns, the dialog comes to rest with no error stored and
    shows its resting face, neither spinner nor error; when the callback
    throws, the dialog stores the classification of the thrown value,
    reports it, and shows the failed face with that message. *)
Theorem fulfilment_is_handed_over
    (navigator : Navigator)
    (onPermissionGranted : MediaStream -> Completion unit)
    (GlassButton_fires : bool -> bool)
    (location : Location) (evs : list Event)
    (stream : MediaStream) (track : MediaStreamTrack) :
  pending (run navigator onPermissionGranted GlassButton_fires evs) <> [] ->
  getVideoTracks stream !! 0%nat = Some track ->
  let d := run navigator onPermissionGranted GlassButton_fires evs in
  let d' := run navigator onPermissionGranted GlassButton_fires
              (evs ++ [Settle 0 (Fulfilled stream)]) in
  pending d' = [] /\
  isRequesting (state d') = false /\
  match onPermissionGranted stream with
  | Normal _ =>
      log (state d') =
        log (state d) ++ [ A_addEventListener track "ended";
                           A_onPermissionGranted stream;
                           A_setIsRequesting false ] /\
      error (state d') = None /\
      exists v,
        render location (state d') = Normal v /\
        view_title v = "Screen Share Permission Required" /\
        view_error_box v = None /\
        view_requesting_hint v = false
  | Abrupt thrown =>
      exists info v box,
        getErrorInfo navigator thrown = Normal info /\
        log (state d') =
          log (state d) ++ [ A_addEventListener track "ended";
                             A_onPermissionGranted stream;
                             A_setError (Some info);
                             A_console_error "Error accessing screen share:" thrown info;
                             A_setIsRequesting false ] /\
        error (state d') = Some info /\
        render location (state d') = Normal v /\
        view_title v = "Screen Share Access Required" /\
        view_description v = message info /\
        view_error_box v = Some box
  end.
Proof.
  intros Hne Ht d d'.
  destruct (settle_pending navigator onPermissionGranted GlassButton_fires evs
              (Fulfilled stream) Hne) as (Hp & Hreq & Herr & Hlog).
  fold d d' in Hp, Hreq, Herr, Hlog. simpl in Herr, Hlog.
  destruct (getVideoTracks stream) as [|t ts]; [discriminate Ht|].
  injection Ht as ->.
  split; [assumption|]. split; [assumption|].
  destruct (onPermissionGranted stream) as [[]|thrown].
  - split; [assumption|]. split; [assumption|].
    rewrite render_at_rest by assumption. eexists. now repeat split.
  - destruct (render_failed location (state d') _ Hreq Herr (classify_type navigator thrown))
      as (v & box & panel & content & entry & frame & Hv & Hbox & _ & _ & _
          & _ & _ & _ & _ & _ & Htitle & Hdesc & _).
    exists (classify navigator thrown), v, box.
    split; [apply getErrorInfo_classify|]. now repeat split.
Qed.

Lemma fulfilment_is_handed_over_witness :
  error (state (run navigator_full callback_returns negb
                  ([] ++ [Settle 0 (Fulfilled screen_stream)]))) = None.
Proof.
  assert (Hne : pending (run navigator_full callback_returns negb []) <> [])
    by (simpl; discriminate).
  pose proof (fulfilment_is_handed_over navigator_full callback_returns negb
                {| protocol := "https:"; host := "example.org" |} []
                screen_stream screen_track Hne eq_refl) as H.
  destruct H as (_ & _ & H). simpl in H. destruct H as (_ & H & _). exact H.
Defined.

(** X14. With a stored error and a button that fires when it is not
    disabled, a click on "Try Again" runs the request again: the flag is
    set and the stored error cleared first; with both environment checks
    passed the platform function is then called with
    [DISPLAY_CONSTRAINTS] and the dialog waits, requesting, with no error
    stored; otherwise the dialog is at rest again with a new error. *)
Theorem retry_runs_the_request_again
    (navigator : Navigator)
    (onPermissionGranted : MediaStream -> Completion unit)
    (GlassButton_fires : bool -> bool) (evs : list Event)
    (info : ErrorInfo) :
  GlassButton_fires false = true ->
  error (state (run navigator onPermissionGranted GlassButton_fires evs)) = Some info ->
  let d := run navigator onPermissionGranted GlassButton_fires evs in
  let d' := run navigator onPermissionGranted GlassButton_fires (evs ++ [ClickTryAgain]) in
  exists acts,
    log (state d') = log (state d) ++ [A_setIsRequesting true; A_setError None] ++ acts /\
    ( capable navigator ->
      acts = [A_getDisplayMedia DISPLAY_CONSTRAINTS] /\
      length (pending d') = 1 /\
      isRequesting (state d') = true /\
      error (state d') = None ) /\
    ( ~ capable navigator ->
      pending d' = [] /\
      isRequesting (state d') = false /\
      exists info', error (state d') = Some info' /\
                    List.filter is_prompt acts = [] ).
Proof.
  intros Hfires Herr d d'. unfold d'. rewrite run_snoc. fold d. fold d in Herr.
  destruct (run_mode navigator onPermissionGranted GlassButton_fires evs)
    as [(Hp & Hreq & _)|(p & k & Hp & Hreq & Herr' & Hk)];
    fold d in Hp, Hreq; [|fold d in Herr'; congruence].
  simpl. unfold retry_rendered, retry_disabled. rewrite Herr, Hreq, Hfires. simpl.
  unfold invoke. rewrite Hp. unfold capable.
  destruct (optional_getDisplayMedia (mediaDevices navigator)) eqn:H.
  - destruct (requestScreenShare_suspends navigator onPermissionGranted (state d) H) as (k & -> & Hk).
    simpl. exists [A_getDisplayMedia DISPLAY_CONSTRAINTS].
    split; [reflexivity|]. split; [now repeat split | congruence].
  - rewrite requestScreenShare_unavailable by assumption. simpl.
    exists (caught navigator NOT_SUPPORTED_error).
    split; [reflexivity|]. split; [discriminate|].
    intros _. repeat split. eauto.
Qed.

Lemma retry_runs_the_request_again_witness :
  exists acts,
    log (state (run navigator_full callback_returns negb
                  ([Settle 0 (Rejected (DOMException "NotAllowedError" ""))]
                     ++ [ClickTryAgain]))) =
      log (state (run navigator_full callback_returns negb
                    [Settle 0 (Rejected (DOMException "NotAllowedError" ""))]))
        ++ [A_setIsRequesting true; A_setError None] ++ acts.
Proof.
  destruct (retry_runs_the_request_again navigator_full callback_returns negb
              [Settle 0 (Rejected (DOMException "NotAllowedError" ""))]
              {| type := "permission"; message := "Screen sharing access denied" |})
    as (acts & Hlog & _).
  - reflexivity.
  - reflexivity.
  - exists acts. exact Hlog.
Defined.

Lemma foldl_step_unavailable navigator onPermissionGranted fires evs d :
  optional_getDisplayMedia (mediaDevices navigator) = false ->
  pending d = [] /\
  error (state d) = Some (classify navigator NOT_SUPPORTED_error) /\
  isRequesting (state d) = false /\
  count is_prompt (log (state d)) = 0 /\
  count is_grant (log (state d)) = 0 ->
  let d' := foldl (step navigator onPermissionGranted fires) d evs in
  pending d' = [] /\
  error (state d') = Some (classify navigator NOT_SUPPORTED_error) /\
  isRequesting (state d') = false /\
  count is_prompt (log (state d')) = 0 /\
  count is_grant (log (state d')) = 0.
Proof.
  intros H. revert d. induction evs as [|ev evs IH]; intros d Hd; [exact Hd|].
  simpl. apply IH. destruct Hd as (Hp & Herr & Hreq & Hprompt & Hgrant).
  destruct ev as [|i st]; simpl.
  - destruct (retry_rendered (state d) && _); [|now repeat split].
    unfold invoke. rewrite Hp, requestScreenShare_unavailable by assumption.
    simpl. rewrite !count_app, Hprompt, Hgrant. now repeat split.
  - rewrite Hp. simpl. now repeat split.
Qed.

(** X15. Without the capability surface or without the capture function,
    a mounted dialog never calls the platform function and never calls
    [onPermissionGranted], however often "Try Again" is clicked: after
    every sequence of events it is at rest, nothing pending, with the
    error of the missing capability stored ("https" or "not-supported"). *)
Theorem unavailable_never_prompts
    (navigator : Navigator)
    (onPermissionGranted : MediaStream -> Completion unit)
    (GlassButton_fires : bool -> bool) (evs : list Event) :
  optional_getDisplayMedia (mediaDevices navigator) = false ->
  let d := run navigator onPermissionGranted GlassButton_fires evs in
  pending d = [] /\
  isRequesting (state d) = false /\
  List.filter is_prompt (log (state d)) = [] /\
  List.filter is_grant (log (state d)) = [] /\
  exists info,
    error (state d) = Some info /\
    (mediaDevices navigator = None -> type info = "https") /\
    (defined (mediaDevices navigator) = true -> type info = "not-supported").
Proof.
  intros H d.
  destruct (foldl_step_unavailable navigator onPermissionGranted GlassButton_fires evs
              (mount navigator onPermissionGranted) H) as (Hp & Herr & Hreq & Hprompt & Hgrant).
  { unfold mount, invoke. simpl.
    rewrite requestScreenShare_unavailable by assumption. now repeat split. }
  fold (run navigator onPermissionGranted GlassButton_fires evs) in Hp, Herr, Hreq, Hprompt, Hgrant.
  fold d in Hp, Herr, Hreq, Hprompt, Hgrant.
  split; [assumption|]. split; [assumption|].
  split; [now apply length_zero_iff_nil|]. split; [now apply length_zero_iff_nil|].
  exists (classify navigator NOT_SUPPORTED_error). split; [assumption|].
  now apply classify_unavailable.
Qed.

Lemma unavailable_never_prompts_witness :
  List.filter is_prompt
    (log (state (run navigator_no_function callback_returns (fun _ => true)
                   [ClickTryAgain; ClickTryAgain]))) = [].
Proof.
  apply (unavailable_never_prompts navigator_no_function callback_returns (fun _ => true)
           [ClickTryAgain; ClickTryAgain]).
  reflexivity.
Defined.

Lemma count_resumed_effects navigator onPermissionGranted st :
  count is_grant (resumed navigator onPermissionGranted st) <= (if is_fulfilment (Settle 0 st) then 1 else 0) /\
  count is_observer (resumed navigator onPermissionGranted st) = count is_grant (resumed navigator onPermissionGranted st) /\
  count is_prompt (resumed navigator onPermissionGranted st) = 0.
Proof.
  destruct st as [stream|reason]; simpl; [|unfold caught; cbn; repeat split; lia].
  destruct (getVideoTracks stream); [unfold caught; cbn; repeat split; lia|].
  destruct (onPermissionGranted stream); unfold caught; cbn; repeat split; lia.
Qed.

Section RerenderedEffects.
Variable navigator : Navigator.
Variable GlassButton_fires : bool -> bool.

Lemma invoke_effects onPermissionGranted d grants prompts :
  Forall (rest_of_invocation navigator) (pending d) ->
  effects_within d grants prompts ->
  Forall (rest_of_invocation navigator) (pending (invoke navigator onPermissionGranted d)) /\
  effects_within (invoke navigator onPermissionGranted d) grants (S prompts).
Proof.
  intros Hall (Hg & Ho & Hc). unfold invoke, effects_within.
  destruct (optional_getDisplayMedia (mediaDevices navigator)) eqn:H.
  - destruct (requestScreenShare_suspends navigator onPermissionGranted (state d) H)
      as (k & -> & Hk).
    simpl. split.
    + apply Forall_app. split; [assumption|].
      constructor; [|constructor]. now exists onPermissionGranted.
    + rewrite !count_app. cbn. lia.
  - rewrite requestScreenShare_unavailable by assumption.
    simpl. split; [assumption|]. rewrite !count_app. cbn. lia.
Qed.

Lemma step_effects onPermissionGranted d ev grants prompts :
  Forall (rest_of_invocation navigator) (pending d) ->
  effects_within d grants prompts ->
  Forall (rest_of_invocation navigator)
    (pending (step navigator onPermissionGranted GlassButton_fires d ev)) /\
  effects_within (step navigator onPermissionGranted GlassButton_fires d ev)
    (grants + (if is_fulfilment ev then 1 else 0))
    (prompts + (if is_click ev then 1 else 0)).
Proof.
  intros Hall He.
  assert (Hsame : forall a b, effects_within d (grants + a) (prompts + b))
    by (destruct He as (Hg & Ho & Hc); intros a b; unfold effects_within; lia).
  destruct ev as [|i st].
  - simpl. destruct (retry_rendered (state d) && _); [|now split].
    replace (grants + 0) with grants by lia.
    replace (prompts + 1) with (S prompts) by lia.
    now apply invoke_effects.
  - cbn [step is_click].
    destruct (pending d !! i) as [[p k]|] eqn:Hi; [|now split].
    pose proof (Forall_lookup_1 _ _ _ _ Hall Hi) as (cb & Hk). simpl in Hk.
    rewrite Hk. simpl. split; [now apply Forall_delete|].
    destruct He as (Hg & Ho & Hc).
    destruct (count_resumed_effects navigator cb st) as (Hg' & Ho' & Hc').
    unfold effects_within. simpl. rewrite !count_app.
    simpl in Hg'. destruct st; lia.
Qed.

Lemma react_effects c input grants prompts :
  Forall (rest_of_invocation navigator) (pending (dialog c)) ->
  effects_within (dialog c) grants prompts ->
  Forall (rest_of_invocation navigator)
    (pending (dialog (react navigator GlassButton_fires c input))) /\
  effects_within (dialog (react navigator GlassButton_fires c input))
    (grants + (if input_is_fulfilment input then 1 else 0))
    (prompts + (if input_is_click input then 1 else 0)
             + (if input_is_new_callback input then 1 else 0)).
Proof.
  intros Hall He. destruct input as [ev|cb]; simpl.
  - replace (prompts + (if is_click ev then 1 else 0) + 0)
      with (prompts + (if is_click ev then 1 else 0)) by lia.
    now apply step_effects.
  - replace (grants + 0) with grants by lia.
    replace (prompts + 0 + 1) with (S prompts) by lia.
    now apply invoke_effects.
Qed.

Lemma foldl_react_effects inputs c grants prompts :
  Forall (rest_of_invocation navigator) (pending (dialog c)) ->
  effects_within (dialog c) grants prompts ->
  effects_within (dialog (foldl (react navigator GlassButton_fires) c inputs))
    (grants + length (List.filter input_is_fulfilment inputs))
    (prompts + length (List.filter input_is_click inputs)
             + length (List.filter input_is_new_callback inputs)).
Proof.
  revert c grants prompts.
  induction inputs as [|input inputs IH]; intros c grants prompts Hall He; simpl.
  - now replace (grants + 0) with grants by lia;
      replace (prompts + 0 + 0) with prompts by lia.
  - destruct (react_effects c input grants prompts Hall He) as [Hall' He'].
    specialize (IH _ _ _ Hall' He').
    destruct (input_is_fulfilment input), (input_is_click input),
      (input_is_new_callback input); simpl;
      repeat match goal with
             | H : effects_within _ ?a ?b |- effects_within _ ?c ?e =>
                 replace c with a by lia; replace e with b by lia; exact H
             end.
Qed.

Lemma foldl_react_Happens evs c :
  dialog (foldl (react navigator GlassButton_fires) c (map Happens evs)) =
    foldl (step navigator (callback c) GlassButton_fires) (dialog c) evs /\
  callback (foldl (react navigator GlassButton_fires) c (map Happens evs)) = callback c.
Proof.
  revert c. induction evs as [|ev evs IH]; intros c; [now split|].
  destruct (IH (react navigator GlassButton_fires c (Happens ev))) as [IH1 IH2].
  split; [exact IH1 | exact IH2].
Qed.

(** A dialog whose parent never changes the callback is the dialog of
    [run]. *)
Lemma play_Happens onPermissionGranted evs :
  dialog (play navigator GlassButton_fires onPermissionGranted (map Happens evs)) =
    run navigator onPermissionGranted GlassButton_fires evs.
Proof. unfold play, run. apply foldl_react_Happens. Qed.
End RerenderedEffects.

(** X16. Whatever the parent does, changes of [onPermissionGranted]
    included, the dialog calls [onPermissionGranted] at most once per
    fulfilled promise, always after registering one observer (there are as
    many observers as calls), and it calls the platform capture function at
    most once for the mount, once per click on "Try Again" and once per
    change of the callback: it never calls back without a stream from the
    platform and never prompts beyond these occasions. *)
Theorem effects_are_accounted_for
    (navigator : Navigator) (GlassButton_fires : bool -> bool)
    (onPermissionGranted : MediaStream -> Completion unit) (inputs : list Input) :
  let d := dialog (play navigator GlassButton_fires onPermissionGranted inputs) in
  count is_grant (log (state d)) <= length (List.filter input_is_fulfilment inputs) /\
  count is_observer (log (state d)) = count is_grant (log (state d)) /\
  count is_prompt (log (state d)) <=
    1 + length (List.filter input_is_click inputs)
      + length (List.filter input_is_new_callback inputs).
Proof.
  intros d.
  destruct (invoke_effects navigator onPermissionGranted
              {| state := initial; pending := [] |} 0 0) as [Hall He].
  { constructor. }
  { unfold effects_within. cbn. repeat split; lia. }
  exact (foldl_react_effects navigator GlassButton_fires inputs
           {| dialog := mount navigator onPermissionGranted;
              callback := onPermissionGranted |} 0 1 Hall He).
Qed.
